(** * Wallet service: the transactional ledger engine

    A shallow embedding of [src/transactionService.js], the retry driver of
    [src/db.js] and the relations of [schema.sql], followed by the properties
    of the ledger engine.

    Conventions of the embedding.
    - A UUID is its 128-bit value, an [N].  The driver renders a uuid as a
      fixed-width lower-case hexadecimal string, so the lexicographic order
      used by JavaScript's [Array.prototype.sort] on two ids and the order
      PostgreSQL uses for [ORDER BY id] both coincide with the numeric order.
    - An amount is the integer number of 10^-8 units of a [DECIMAL(20, 8)]
      column.  Arithmetic on amounts is taken to be exact: the rounding of
      JavaScript doubles and the overflow of the column are outside the
      model.
    - A timestamp is a number of milliseconds.
    - A JSON value ([metadata], [response_data]) is the record of the fields
      the engine reads or writes; a field that is missing or [undefined] is
      [None].  Writing a response with [JSON.stringify] and reading it back
      from the JSONB column is the identity on such records. *)

From stdpp Require Import gmap strings list fin_maps sorting.
From Stdlib Require Import ZArith NArith.

Set Default Proof Using "Type".

Abbreviation uuid := N.
Abbreviation timestamp := Z.
Abbreviation money := Z.

(** ** The relations of schema.sql *)

Module Schema.

Record asset_type := {
  at_id : uuid;
  at_code : string;
  at_is_active : bool }.

Record account_type := {
  acty_id : uuid;
  acty_code : string }.

Record account := {
  acc_id : uuid;
  acc_account_type_id : uuid;
  acc_user_id : option string;      (* NULL for system accounts *)
  acc_is_active : bool }.

Record transaction_type := {
  tt_id : uuid;
  tt_code : string }.

(** [status VARCHAR(20) CHECK (status IN ('pending', 'completed', 'failed',
    'reversed'))] *)
Inductive status := pending | completed | failed | reversed.

(** The JSON object passed as [metadata]: the fields the engine reads. *)
Record metadata := {
  md_description : option string;
  md_reason : option string;
  md_itemName : option string;
  md_itemId : option string }.

(** The description column: either a caller-supplied text or one of the
    template strings of the engine, kept with its holes. *)
Inductive description :=
| DescText (s : string)
| DescTopUp (amount : money) (assetCode : string)
      (* `Top-up ${amount} ${assetCode}` *)
| DescBonus (amount : money) (assetCode : string)
      (* `Bonus ${amount} ${assetCode}` *)
| DescPurchaseItem (itemName : string) (amount : money) (assetCode : string)
      (* `Purchase ${metadata.itemName} for ${amount} ${assetCode}` *)
| DescPurchase (amount : money) (assetCode : string).
      (* `Purchase for ${amount} ${assetCode}` *)

Record transaction := {
  t_id : uuid;
  t_idempotency_key : string;
  t_transaction_type_id : uuid;
  t_asset_type_id : uuid;
  t_amount : money;
  t_description : description;
  t_metadata : metadata;
  t_status : status;
  t_created_at : timestamp;
  t_completed_at : option timestamp }.

(** [entry_type VARCHAR(10) CHECK (entry_type IN ('debit', 'credit'))] *)
Inductive entry_type := debit | credit.

Record ledger_entry := {
  le_transaction_id : uuid;
  le_account_id : uuid;
  le_asset_type_id : uuid;
  le_entry_type : entry_type;
  le_amount : money;
  le_running_balance : money;
  le_description : string;
  le_created_at : timestamp }.

Record balance_cache_row := {
  bc_balance : money;
  bc_last_transaction_id : uuid;
  bc_updated_at : timestamp }.

(** The object returned to the caller and stored as [response_data]. *)
Record response := {
  transactionId : uuid;
  userId : string;
  assetCode : string;
  amount : money;
  newBalance : money;
  reason : option string;
  item : option string;
  timestamp_iso : timestamp }.

(** [_hashRequest({ userId, assetCode, amount })]: SHA-256 is injective
    as far as the engine is concerned, a digest is kept as the data it
    was taken of. *)
Record request_hash := {
  rh_userId : string;
  rh_assetCode : string;
  rh_amount : money }.

Record idempotency_row := {
  il_request_hash : request_hash;
  il_response_data : response;
  il_status : string;
  il_created_at : timestamp;
  il_expires_at : timestamp }.

Record audit_row := {
  al_transaction_id : uuid;
  al_account_id : uuid;
  al_action : string;
  al_request_userId : string;
  al_request_assetCode : string;
  al_request_amount : money;
  al_request_extra : option string }.

(** The persisted state: one field per relation.  [balance_cache] has the
    primary key [(account_id, asset_type_id)] and [idempotency_log] the
    primary key [idempotency_key], they are finite maps on their key. *)
Record database := {
  asset_types : list asset_type;
  account_types : list account_type;
  accounts : list account;
  transaction_types : list transaction_type;
  transactions : list transaction;
  ledger_entries : list ledger_entry;
  balance_cache : gmap (uuid * uuid) balance_cache_row;
  idempotency_log : gmap string idempotency_row;
  audit_log : list audit_row }.

Definition with_transactions (f : list transaction → list transaction)
    (d : database) : database :=
  {| asset_types := asset_types d; account_types := account_types d;
     accounts := accounts d; transaction_types := transaction_types d;
     transactions := f (transactions d);
     ledger_entries := ledger_entries d;
     balance_cache := balance_cache d;
     idempotency_log := idempotency_log d; audit_log := audit_log d |}.

Definition with_ledger_entries (f : list ledger_entry → list ledger_entry)
    (d : database) : database :=
  {| asset_types := asset_types d; account_types := account_types d;
     accounts := accounts d; transaction_types := transaction_types d;
     transactions := transactions d;
     ledger_entries := f (ledger_entries d);
     balance_cache := balance_cache d;
     idempotency_log := idempotency_log d; audit_log := audit_log d |}.

Definition with_balance_cache
    (f : gmap (uuid * uuid) balance_cache_row →
         gmap (uuid * uuid) balance_cache_row)
    (d : database) : database :=
  {| asset_types := asset_types d; account_types := account_types d;
     accounts := accounts d; transaction_types := transaction_types d;
     transactions := transactions d;
     ledger_entries := ledger_entries d;
     balance_cache := f (balance_cache d);
     idempotency_log := idempotency_log d; audit_log := audit_log d |}.

Definition with_idempotency_log
    (f : gmap string idempotency_row → gmap string idempotency_row)
    (d : database) : database :=
  {| asset_types := asset_types d; account_types := account_types d;
     accounts := accounts d; transaction_types := transaction_types d;
     transactions := transactions d;
     ledger_entries := ledger_entries d;
     balance_cache := balance_cache d;
     idempotency_log := f (idempotency_log d); audit_log := audit_log d |}.

Definition with_audit_log (f : list audit_row → list audit_row)
    (d : database) : database :=
  {| asset_types := asset_types d; account_types := account_types d;
     accounts := accounts d; transaction_types := transaction_types d;
     transactions := transactions d;
     ledger_entries := ledger_entries d;
     balance_cache := balance_cache d;
     idempotency_log := idempotency_log d; audit_log := f (audit_log d) |}.

#[global] Instance status_eq_dec : EqDecision status.
Proof. solve_decision. Defined.
#[global] Instance entry_type_eq_dec : EqDecision entry_type.
Proof. solve_decision. Defined.

End Schema.
Export Schema.

(** ** Errors *)

(** What a [throw] carries.  A failure raised by [client.query] has the
    SQLSTATE of the server in [error.code]; an [Error] made by the service
    itself has no [code]. *)
Inductive error :=
| DatabaseError (code : string)
| MissingRequiredParameters          (* "Missing required parameters" *)
| AmountMustBePositive               (* "Amount must be positive" *)
| AssetTypeNotFound (assetCode : string)
| UserAccountNotFound (userId : string)
| SystemTreasuryAccountNotFound      (* "System treasury account not found" *)
| BonusPoolAccountNotFound           (* "Bonus pool account not found" *)
| RevenueAccountNotFound             (* "Revenue account not found" *)
| InsufficientTreasuryBalance        (* "Insufficient treasury balance" *)
| InsufficientBonusPoolBalance       (* "Insufficient bonus pool balance" *)
| InsufficientBalance (available required : money)
| TypeErrorUndefinedRow              (* [rows[0].id] on an empty result *)
| UndefinedError.                    (* [throw lastError] with nothing caught *)

#[global] Instance error_eq_dec : EqDecision error.
Proof. solve_decision. Defined.

Definition error_code (e : error) : option string :=
  match e with DatabaseError c => Some c | _ => None end.

(** The three insufficient-balance failures, [InsufficientFunds] in the
    specification. *)
Definition is_InsufficientFunds (e : error) : bool :=
  match e with
  | InsufficientTreasuryBalance | InsufficientBonusPoolBalance
  | InsufficientBalance _ _ => true
  | _ => false
  end.

Definition serialization_failure : string := "40001".
Definition deadlock_detected : string := "40P01".
Definition lock_not_available : string := "55P03".
Definition unique_violation : string := "23505".
Definition check_violation : string := "23514".

Inductive outcome (A : Type) :=
| Return (a : A)
| Throw (e : error).
Arguments Return {A} a.
Arguments Throw {A} e.

(** ** The store adapter: a pooled connection and its open transaction *)

(** The statements a movement sends over its connection, and the balance
    test made by the service between two of them; a connection keeps them
    in the order they were issued. *)
Inductive step :=
| Begin
| SelectAssetType
| SelectUserAccount (for_update : bool)
| SelectSystemAccount (code : string)
| LockAccounts (ids : list uuid)
| SelectTransactionType (code : string)
| InsertTransaction
| SelectBalance (account_id : uuid)
| CheckBalance (account_id : uuid)
| InsertLedgerEntry (entry : entry_type) (account_id : uuid)
| UpsertBalanceCache (account_id : uuid)
| InsertIdempotencyLog
| InsertAuditLog
| Commit
| Rollback.

#[global] Instance step_eq_dec : EqDecision step.
Proof. solve_decision. Defined.

(** What one execution of a movement takes from outside the program: the
    identifier drawn by [uuidv4()], the clocks, the account rows that other
    sessions hold locked, and whether the serializable commit is refused
    because of a concurrent transaction. *)
Record environment := {
  uuidv4 : uuid;
  CURRENT_TIMESTAMP : timestamp;       (* start of the transaction *)
  date_completed : timestamp;          (* [new Date()] of [completed_at] *)
  date_response : timestamp;           (* [new Date()] of the response *)
  locked_elsewhere : gset uuid;
  serialization_conflict : bool }.

Record connection := {
  committed : database;     (* the state every other session sees *)
  working : database;       (* the state seen inside the open transaction *)
  row_locks : list uuid;    (* account rows locked, in acquisition order *)
  statements : list step }.

(** [pool.connect()] *)
Definition connect (d : database) : connection :=
  {| committed := d; working := d; row_locks := []; statements := [] |}.

(** Code running on a connection: it returns or throws, and leaves the
    connection in a new state. *)
Definition Tx (A : Type) : Type := connection → outcome A * connection.

#[global] Instance Tx_ret : MRet Tx := λ A a c, (Return a, c).
#[global] Instance Tx_bind : MBind Tx := λ A B k m c,
  match m c with
  | (Return a, c') => k a c'
  | (Throw e, c') => (Throw e, c')
  end.

Definition throw {A} (e : error) : Tx A := λ c, (Throw e, c).

(** [try { body } catch (error) { handler }] *)
Definition try_catch {A} (body : Tx A) (handler : error → Tx A) : Tx A :=
  λ c, match body c with
       | (Return a, c') => (Return a, c')
       | (Throw e, c') => handler e c'
       end.

Definition modify (f : connection → connection) : Tx unit :=
  λ c, (Return (), f c).

Definition issued (s : step) (c : connection) : connection :=
  {| committed := committed c; working := working c;
     row_locks := row_locks c; statements := statements c ++ [s] |}.

Definition locked (ids : list uuid) (c : connection) : connection :=
  {| committed := committed c; working := working c;
     row_locks := row_locks c ++ ids; statements := statements c |}.

Definition written (d : database) (c : connection) : connection :=
  {| committed := committed c; working := d;
     row_locks := row_locks c; statements := statements c |}.

Definition published (c : connection) : connection :=
  {| committed := working c; working := working c;
     row_locks := row_locks c; statements := statements c |}.

Definition issue (s : step) : Tx unit := modify (issued s).

(** A statement reading the state of the open transaction. *)
Definition read {A} (f : database → A) : Tx A := λ c, (Return (f (working c)), c).

(** A statement writing to the state of the open transaction; a violated
    constraint throws and writes nothing. *)
Definition write (f : database → outcome database) : Tx unit := λ c,
  match f (working c) with
  | Return d => (Return (), written d c)
  | Throw e => (Throw e, c)
  end.

(** [FOR UPDATE NOWAIT] on the rows [ids], taken one after the other: a row
    held by another session fails the statement at once. *)
Fixpoint lock_nowait (held : gset uuid) (ids : list uuid) : Tx unit :=
  match ids with
  | [] => mret ()
  | i :: rest =>
      if decide (i ∈ held) then throw (DatabaseError lock_not_available)
      else modify (locked [i]);; lock_nowait held rest
  end.

(** [BEGIN ISOLATION LEVEL SERIALIZABLE] *)
Definition BEGIN : Tx unit :=
  issue Begin;;
  modify (λ c, written (committed c) c).

(** [COMMIT]: publishes the writes of the transaction, unless the server
    refuses it with a serialization failure. *)
Definition COMMIT (env : environment) : Tx unit :=
  issue Commit;;
  if serialization_conflict env then throw (DatabaseError serialization_failure)
  else modify published.

(** [ROLLBACK]: drops the writes of the transaction. *)
Definition ROLLBACK : Tx unit :=
  issue Rollback;;
  modify (λ c, written (committed c) c).

(** [rows.length === 0] / [rows[0]] *)
Definition first_row {A} (rows : list A) (absent : error) : Tx A :=
  match rows with
  | [] => throw absent
  | r :: _ => mret r
  end.

(** ** The queries of transactionService.js *)

(** [SELECT id FROM asset_types WHERE code = $1 AND is_active = true] *)
Definition select_asset_type (code : string) (d : database) : list uuid :=
  at_id <$> filter (λ r, at_code r = code ∧ at_is_active r = true) (asset_types d).

(** [SELECT id FROM accounts WHERE user_id = $1 AND is_active = true] *)
Definition select_user_account (user : string) (d : database) : list uuid :=
  acc_id <$> filter (λ a, acc_user_id a = Some user ∧ acc_is_active a = true)
                    (accounts d).

(** [SELECT a.id FROM accounts a JOIN account_types at
     ON a.account_type_id = at.id WHERE at.code = $code AND a.is_active = true]
    ([account_types.id] is a primary key: an account joins one row at most) *)
Definition select_system_account (code : string) (d : database) : list uuid :=
  acc_id <$> filter (λ a, Exists (λ t, acty_id t = acc_account_type_id a
                                       ∧ acty_code t = code) (account_types d)
                          ∧ acc_is_active a = true)
                    (accounts d).

(** [SELECT id FROM accounts WHERE id = $1] *)
Definition select_account_by_id (id : uuid) (d : database) : list uuid :=
  acc_id <$> filter (λ a, acc_id a = id) (accounts d).

(** [SELECT id FROM accounts WHERE id = ANY($1) ORDER BY id] *)
Definition select_accounts_ordered (ids : list uuid) (d : database) : list uuid :=
  merge_sort N.le (acc_id <$> filter (λ a, acc_id a ∈ ids) (accounts d)).

(** [SELECT id FROM transaction_types WHERE code = $1] *)
Definition select_transaction_type (code : string) (d : database) : list uuid :=
  tt_id <$> filter (λ t, tt_code t = code) (transaction_types d).

(** [[x, y].sort()] on two account ids *)
Definition sort_pair (x y : uuid) : list uuid :=
  if decide (y < x)%N then [y; x] else [x; y].

(** [INSERT INTO transactions ...]: [CHECK (amount > 0)], the primary key
    [id] and [idempotency_key ... UNIQUE]. *)
Definition insert_transaction (row : transaction) (d : database) : outcome database :=
  if decide (t_amount row ≤ 0)%Z then Throw (DatabaseError check_violation)
  else if decide (Exists (λ t, t_id t = t_id row
                               ∨ t_idempotency_key t = t_idempotency_key row)
                         (transactions d))
  then Throw (DatabaseError unique_violation)
  else Return (with_transactions (λ l, l ++ [row]) d).

(** [INSERT INTO ledger_entries ...]: [CHECK (amount > 0)]. *)
Definition insert_ledger_entry (row : ledger_entry) (d : database) : outcome database :=
  if decide (le_amount row ≤ 0)%Z then Throw (DatabaseError check_violation)
  else Return (with_ledger_entries (λ l, l ++ [row]) d).

(** [INSERT INTO balance_cache ... ON CONFLICT (account_id, asset_type_id)
     DO UPDATE SET ...]: [CHECK (balance >= 0)]. *)
Definition upsert_balance_cache (account_id asset_type_id : uuid)
    (row : balance_cache_row) (d : database) : outcome database :=
  if decide (bc_balance row < 0)%Z then Throw (DatabaseError check_violation)
  else Return (with_balance_cache (λ m, <[(account_id, asset_type_id) := row]> m) d).

(** [INSERT INTO idempotency_log ...]: the primary key [idempotency_key]. *)
Definition insert_idempotency_log (key : string) (row : idempotency_row)
    (d : database) : outcome database :=
  match idempotency_log d !! key with
  | Some _ => Throw (DatabaseError unique_violation)
  | None => Return (with_idempotency_log (λ m, <[key := row]> m) d)
  end.

(** [INSERT INTO audit_log ...] *)
Definition insert_audit_log (row : audit_row) (d : database) : outcome database :=
  Return (with_audit_log (λ l, l ++ [row]) d).

(** [SELECT balance FROM balance_cache WHERE account_id = $1 AND
     asset_type_id = $2], a missing row reading as 0. *)
Definition cached_balance (account_id asset_type_id : uuid) (d : database) : money :=
  match balance_cache d !! (account_id, asset_type_id) with
  | Some row => bc_balance row
  | None => 0%Z
  end.

(** JavaScript truthiness of a string that may be absent. *)
Definition truthy (s : option string) : option string :=
  match s with
  | Some EmptyString => None
  | _ => s
  end.

Definition idempotency_ttl : Z := 24 * 60 * 60 * 1000.

(** ** db.js: the retry driver *)

Module Db.

(** [error.code === '40P01' || error.code === '40001' ||
     error.code === '55P03'] *)
Definition isRetriable (e : error) : bool :=
  bool_decide (error_code e = Some "40P01")
  || bool_decide (error_code e = Some "40001")
  || bool_decide (error_code e = Some "55P03").

Section retry.
Context {A : Type}.
(** The function to run; the attempt number selects what the attempt
    meets outside the program. *)
Variable queryFunction : nat → database → outcome A * database.
Variable maxRetries : nat.

(** The loop [for (attempt; attempt <= maxRetries; attempt++)], with
    [remaining] iterations to go; the backoff sleep between two
    attempts has no effect on the state. *)
Fixpoint retry_loop (remaining attempt : nat) (lastError : option error)
    (d : database) : outcome A * database :=
  match remaining with
  | 0%nat => (Throw (default UndefinedError lastError), d)
  | S remaining' =>
      match queryFunction attempt d with
      | (Return a, d') => (Return a, d')
      | (Throw e, d') =>
          if negb (isRetriable e) || (attempt =? maxRetries)%nat
          then (Throw e, d')
          else retry_loop remaining' (S attempt) (Some e) d'
      end
  end.

Definition executeWithRetry (d : database) : outcome A * database :=
  retry_loop maxRetries 1%nat None d.
End retry.

End Db.

(** ** transactionService.js *)

Module TransactionService.

(** [_getBalance(client, accountId, assetTypeId)] *)
Definition _getBalance (accountId assetTypeId : uuid) : Tx money :=
  issue (SelectBalance accountId);;
  read (cached_balance accountId assetTypeId).

(** [_updateBalanceCache(client, accountId, assetTypeId, newBalance,
    transactionId)] *)
Definition _updateBalanceCache (env : environment)
    (accountId assetTypeId : uuid) (newBalance : money)
    (transactionId : uuid) : Tx unit :=
  issue (UpsertBalanceCache accountId);;
  write (upsert_balance_cache accountId assetTypeId
           {| bc_balance := newBalance;
              bc_last_transaction_id := transactionId;
              bc_updated_at := CURRENT_TIMESTAMP env |}).

(** [_createAuditLog(client, transactionId, accountId, action,
    requestData)] *)
Definition _createAuditLog (transactionId accountId : uuid) (action : string)
    (userId assetCode : string) (amount : money) (extra : option string)
    : Tx unit :=
  issue InsertAuditLog;;
  write (insert_audit_log
           {| al_transaction_id := transactionId;
              al_account_id := accountId;
              al_action := action;
              al_request_userId := userId;
              al_request_assetCode := assetCode;
              al_request_amount := amount;
              al_request_extra := extra |}).

(** [_hashRequest(data)] *)
Definition _hashRequest (userId assetCode : string) (amount : money)
    : request_hash :=
  {| rh_userId := userId; rh_assetCode := assetCode; rh_amount := amount |}.

(** [_checkIdempotency(idempotencyKey)]: a read on a connection of its
    own, outside any transaction. *)
Definition _checkIdempotency (now : timestamp) (idempotencyKey : string)
    (d : database) : option response :=
  match idempotency_log d !! idempotencyKey with
  | Some row =>
      if decide (now < il_expires_at row)%Z       (* expires_at > CURRENT_TIMESTAMP *)
      then if decide (il_status row = "completed")
           then Some (il_response_data row)
           else None
      else None
  | None => None
  end.

(** [SELECT id FROM accounts WHERE id = $1 FOR UPDATE NOWAIT] *)
Definition lock_account (env : environment) (id : uuid) : Tx unit :=
  issue (LockAccounts [id]);;
  rows ← read (select_account_by_id id);
  lock_nowait (locked_elsewhere env) rows.

(** [SELECT id FROM accounts WHERE id = ANY($1) ORDER BY id
     FOR UPDATE NOWAIT] *)
Definition lock_accounts_ordered (env : environment) (ids : list uuid)
    : Tx unit :=
  issue (LockAccounts ids);;
  rows ← read (select_accounts_ordered ids);
  lock_nowait (locked_elsewhere env) rows.

(** [INSERT INTO idempotency_log (idempotency_key, request_hash,
     response_data, status, expires_at) VALUES ($1, $2, $3, $4,
     CURRENT_TIMESTAMP + INTERVAL '24 hours')] *)
Definition record_idempotency (env : environment) (idempotencyKey : string)
    (hash : request_hash) (responseData : response) : Tx unit :=
  issue InsertIdempotencyLog;;
  write (insert_idempotency_log idempotencyKey
           {| il_request_hash := hash;
              il_response_data := responseData;
              il_status := "completed";
              il_created_at := CURRENT_TIMESTAMP env;
              il_expires_at := (CURRENT_TIMESTAMP env + idempotency_ttl)%Z |}).

(** [INSERT INTO ledger_entries (transaction_id, account_id,
     asset_type_id, entry_type, amount, running_balance, description)] *)
Definition add_ledger_entry (env : environment) (transactionId accountId
    assetTypeId : uuid) (entry : entry_type) (amount running : money)
    (text : string) : Tx unit :=
  issue (InsertLedgerEntry entry accountId);;
  write (insert_ledger_entry
           {| le_transaction_id := transactionId;
              le_account_id := accountId;
              le_asset_type_id := assetTypeId;
              le_entry_type := entry;
              le_amount := amount;
              le_running_balance := running;
              le_description := text;
              le_created_at := CURRENT_TIMESTAMP env |}).

(** [INSERT INTO transactions (id, idempotency_key, transaction_type_id,
     asset_type_id, amount, description, metadata, status, completed_at)
     VALUES ($1, ..., $7, "completed", new Date())] *)
Definition add_transaction (env : environment) (transactionId : uuid)
    (idempotencyKey : string) (transactionTypeId assetTypeId : uuid)
    (amount : money) (text : description) (metadata : metadata) : Tx unit :=
  issue InsertTransaction;;
  write (insert_transaction
           {| t_id := transactionId;
              t_idempotency_key := idempotencyKey;
              t_transaction_type_id := transactionTypeId;
              t_asset_type_id := assetTypeId;
              t_amount := amount;
              t_description := text;
              t_metadata := metadata;
              t_status := completed;
              t_created_at := CURRENT_TIMESTAMP env;
              t_completed_at := Some (date_completed env) |}).

Definition _executeTopUpTransaction (env : environment)
    (userId assetCode : string) (amount : money) (idempotencyKey : string)
    (metadata : metadata) : Tx response :=
  try_catch
    (BEGIN;;
     (* Get asset type *)
     issue SelectAssetType;;
     assetResult ← read (select_asset_type assetCode);
     assetTypeId ← first_row assetResult (AssetTypeNotFound assetCode);
     (* Get user account with lock *)
     issue (SelectUserAccount true);;
     userAccountResult ← read (select_user_account userId);
     lock_nowait (locked_elsewhere env) userAccountResult;;
     userAccountId ← first_row userAccountResult (UserAccountNotFound userId);
     (* Get system treasury account *)
     issue (SelectSystemAccount "SYSTEM_TREASURY");;
     treasuryResult ← read (select_system_account "SYSTEM_TREASURY");
     treasuryAccountId ← first_row treasuryResult SystemTreasuryAccountNotFound;
     (* Lock both accounts (one is already locked, lock the other) *)
     let accountIds := sort_pair userAccountId treasuryAccountId in
     (if decide (accountIds !!! 0%nat ≠ userAccountId)
      then lock_account env (accountIds !!! 0%nat) else mret ());;
     (if decide (accountIds !!! 1%nat ≠ userAccountId)
      then lock_account env (accountIds !!! 1%nat) else mret ());;
     (* Get transaction type *)
     issue (SelectTransactionType "TOP_UP");;
     txnTypeResult ← read (select_transaction_type "TOP_UP");
     transactionTypeId ← first_row txnTypeResult TypeErrorUndefinedRow;
     (* Create transaction record *)
     let transactionId := uuidv4 env in
     let description :=
       match truthy (md_description metadata) with
       | Some text => DescText text
       | None => DescTopUp amount assetCode
       end in
     add_transaction env transactionId idempotencyKey transactionTypeId
       assetTypeId amount description metadata;;
     (* Get current balances *)
     treasuryBalance ← _getBalance treasuryAccountId assetTypeId;
     userBalance ← _getBalance userAccountId assetTypeId;
     (* Verify treasury has sufficient balance *)
     issue (CheckBalance treasuryAccountId);;
     (if decide (treasuryBalance < amount)%Z
      then throw InsufficientTreasuryBalance else mret ());;
     (* Calculate new balances *)
     let newTreasuryBalance := (treasuryBalance - amount)%Z in
     let newUserBalance := (userBalance + amount)%Z in
     (* Debit from treasury, credit to user *)
     add_ledger_entry env transactionId treasuryAccountId assetTypeId debit
       amount newTreasuryBalance "Debit from treasury for user top-up";;
     add_ledger_entry env transactionId userAccountId assetTypeId credit
       amount newUserBalance "Credit to user wallet";;
     (* Update balance cache atomically *)
     _updateBalanceCache env treasuryAccountId assetTypeId newTreasuryBalance
       transactionId;;
     _updateBalanceCache env userAccountId assetTypeId newUserBalance
       transactionId;;
     (* Create idempotency log *)
     let responseData :=
       {| transactionId := transactionId;
          userId := userId;
          assetCode := assetCode;
          amount := amount;
          newBalance := newUserBalance;
          reason := None;
          item := None;
          timestamp_iso := date_response env |} in
     record_idempotency env idempotencyKey
       (_hashRequest userId assetCode amount) responseData;;
     (* Create audit log *)
     _createAuditLog transactionId userAccountId "TOP_UP"
       userId assetCode amount (Some idempotencyKey);;
     (* Commit transaction *)
     COMMIT env;;
     mret responseData)
    (λ error, ROLLBACK;; throw error).

Definition _executeIssueBonusTransaction (env : environment)
    (userId assetCode : string) (amount : money) (idempotencyKey : string)
    (metadata : metadata) : Tx response :=
  try_catch
    (BEGIN;;
     (* Get asset type *)
     issue SelectAssetType;;
     assetResult ← read (select_asset_type assetCode);
     assetTypeId ← first_row assetResult (AssetTypeNotFound assetCode);
     (* Get user account *)
     issue (SelectUserAccount false);;
     userAccountResult ← read (select_user_account userId);
     userAccountId ← first_row userAccountResult (UserAccountNotFound userId);
     (* Get bonus pool account *)
     issue (SelectSystemAccount "SYSTEM_BONUS");;
     bonusPoolResult ← read (select_system_account "SYSTEM_BONUS");
     bonusPoolAccountId ← first_row bonusPoolResult BonusPoolAccountNotFound;
     (* Lock accounts in order *)
     let accountIds := sort_pair userAccountId bonusPoolAccountId in
     lock_accounts_ordered env accountIds;;
     (* Get transaction type *)
     issue (SelectTransactionType "BONUS");;
     txnTypeResult ← read (select_transaction_type "BONUS");
     transactionTypeId ← first_row txnTypeResult TypeErrorUndefinedRow;
     (* Create transaction *)
     let transactionId := uuidv4 env in
     let description :=
       match truthy (md_reason metadata) with
       | Some text => DescText text
       | None => DescBonus amount assetCode
       end in
     add_transaction env transactionId idempotencyKey transactionTypeId
       assetTypeId amount description metadata;;
     (* Get balances *)
     bonusPoolBalance ← _getBalance bonusPoolAccountId assetTypeId;
     userBalance ← _getBalance userAccountId assetTypeId;
     (* Check bonus pool has sufficient balance *)
     issue (CheckBalance bonusPoolAccountId);;
     (if decide (bonusPoolBalance < amount)%Z
      then throw InsufficientBonusPoolBalance else mret ());;
     (* Calculate new balances *)
     let newBonusPoolBalance := (bonusPoolBalance - amount)%Z in
     let newUserBalance := (userBalance + amount)%Z in
     (* Double-entry: debit from bonus pool, credit to user *)
     add_ledger_entry env transactionId bonusPoolAccountId assetTypeId debit
       amount newBonusPoolBalance "Debit from bonus pool";;
     add_ledger_entry env transactionId userAccountId assetTypeId credit
       amount newUserBalance "Bonus credit to user";;
     (* Update balance cache *)
     _updateBalanceCache env bonusPoolAccountId assetTypeId
       newBonusPoolBalance transactionId;;
     _updateBalanceCache env userAccountId assetTypeId newUserBalance
       transactionId;;
     (* Idempotency log *)
     let responseData :=
       {| transactionId := transactionId;
          userId := userId;
          assetCode := assetCode;
          amount := amount;
          newBalance := newUserBalance;
          reason := md_reason metadata;
          item := None;
          timestamp_iso := date_response env |} in
     record_idempotency env idempotencyKey
       (_hashRequest userId assetCode amount) responseData;;
     (* Audit log *)
     _createAuditLog transactionId userAccountId "BONUS"
       userId assetCode amount (md_reason metadata);;
     COMMIT env;;
     mret responseData)
    (λ error, ROLLBACK;; throw error).

(** [metadata.itemName || metadata.itemId] *)
Definition purchased_item (metadata : metadata) : option string :=
  match truthy (md_itemName metadata) with
  | Some name => Some name
  | None => md_itemId metadata
  end.

Definition _executePurchaseTransaction (env : environment)
    (userId assetCode : string) (amount : money) (idempotencyKey : string)
    (metadata : metadata) : Tx response :=
  try_catch
    (BEGIN;;
     (* Get asset type *)
     issue SelectAssetType;;
     assetResult ← read (select_asset_type assetCode);
     assetTypeId ← first_row assetResult (AssetTypeNotFound assetCode);
     (* Get user account *)
     issue (SelectUserAccount false);;
     userAccountResult ← read (select_user_account userId);
     userAccountId ← first_row userAccountResult (UserAccountNotFound userId);
     (* Get revenue account *)
     issue (SelectSystemAccount "SYSTEM_REVENUE");;
     revenueResult ← read (select_system_account "SYSTEM_REVENUE");
     revenueAccountId ← first_row revenueResult RevenueAccountNotFound;
     (* Lock accounts in order *)
     let accountIds := sort_pair userAccountId revenueAccountId in
     lock_accounts_ordered env accountIds;;
     (* Get transaction type *)
     issue (SelectTransactionType "PURCHASE");;
     txnTypeResult ← read (select_transaction_type "PURCHASE");
     transactionTypeId ← first_row txnTypeResult TypeErrorUndefinedRow;
     (* Get user balance *)
     userBalance ← _getBalance userAccountId assetTypeId;
     (* Check sufficient balance *)
     issue (CheckBalance userAccountId);;
     (if decide (userBalance < amount)%Z
      then throw (InsufficientBalance userBalance amount) else mret ());;
     (* Create transaction *)
     let transactionId := uuidv4 env in
     let description :=
       match truthy (md_itemName metadata) with
       | Some name => DescPurchaseItem name amount assetCode
       | None => DescPurchase amount assetCode
       end in
     add_transaction env transactionId idempotencyKey transactionTypeId
       assetTypeId amount description metadata;;
     (* Get revenue balance *)
     revenueBalance ← _getBalance revenueAccountId assetTypeId;
     (* Calculate new balances *)
     let newUserBalance := (userBalance - amount)%Z in
     let newRevenueBalance := (revenueBalance + amount)%Z in
     (* Double-entry: debit from user, credit to revenue *)
     add_ledger_entry env transactionId userAccountId assetTypeId debit
       amount newUserBalance "Debit from user for purchase";;
     add_ledger_entry env transactionId revenueAccountId assetTypeId credit
       amount newRevenueBalance "Revenue from user purchase";;
     (* Update balance cache *)
     _updateBalanceCache env userAccountId assetTypeId newUserBalance
       transactionId;;
     _updateBalanceCache env revenueAccountId assetTypeId newRevenueBalance
       transactionId;;
     (* Idempotency log *)
     let responseData :=
       {| transactionId := transactionId;
          userId := userId;
          assetCode := assetCode;
          amount := amount;
          newBalance := newUserBalance;
          reason := None;
          item := purchased_item metadata;
          timestamp_iso := date_response env |} in
     record_idempotency env idempotencyKey
       (_hashRequest userId assetCode amount) responseData;;
     (* Audit log *)
     _createAuditLog transactionId userAccountId "PURCHASE"
       userId assetCode amount (purchased_item metadata);;
     COMMIT env;;
     mret responseData)
    (λ error, ROLLBACK;; throw error).

(** What a call of the service meets outside the program: the clock at
    its idempotency lookup, the environment of each attempt the retry
    driver makes, and what the other workers commit before the attempt
    begins (after the lookup, or after the attempt before). *)
Record world := {
  lookup_time : timestamp;
  attempt_env : nat → environment;
  concurrent : nat → database → database }.

(** One attempt: a connection from the pool, the transaction on it, and
    the state it leaves committed. *)
Definition attempt {A} (w : world) (body : environment → Tx A)
    (n : nat) (d : database) : outcome A * database :=
  let '(r, c) := body (attempt_env w n) (connect (concurrent w n d)) in
  (r, committed c).

(** [!userId || !assetCode || !amount || !idempotencyKey] *)
Definition missing_parameters (userId assetCode : string) (amount : money)
    (idempotencyKey : string) : Prop :=
  userId = EmptyString ∨ assetCode = EmptyString ∨ amount = 0%Z
  ∨ idempotencyKey = EmptyString.

(** The body shared, line for line, by [topUp], [issueBonus] and
    [purchase], which differ in the transaction they execute. *)
Definition validated_and_retried (w : world)
    (execute : environment → string → string → money → string →
               metadata → Tx response)
    (userId assetCode : string) (amount : money) (idempotencyKey : string)
    (metadata : metadata) (d : database) : outcome response * database :=
  (* Validate inputs *)
  if decide (missing_parameters userId assetCode amount idempotencyKey)
  then (Throw MissingRequiredParameters, d)
  else if decide (amount ≤ 0)%Z
  then (Throw AmountMustBePositive, d)
  else
    (* Check idempotency first (outside transaction for performance) *)
    match _checkIdempotency (lookup_time w) idempotencyKey d with
    | Some existingResult => (Return existingResult, d)
    | None =>
        (* Execute transaction with retry logic *)
        Db.executeWithRetry
          (attempt w (λ env, execute env userId assetCode amount
                               idempotencyKey metadata))
          3 d
    end.

Definition topUp (w : world) :=
  validated_and_retried w _executeTopUpTransaction.

Definition issueBonus (w : world) :=
  validated_and_retried w _executeIssueBonusTransaction.

Definition purchase (w : world) :=
  validated_and_retried w _executePurchaseTransaction.

End TransactionService.
Export Db TransactionService.

(** ** The three movements, seen together *)

Inductive operation := TOP_UP | BONUS | PURCHASE.

Definition execute (op : operation) :
    environment → string → string → money → string → metadata → Tx response :=
  match op with
  | TOP_UP => _executeTopUpTransaction
  | BONUS => _executeIssueBonusTransaction
  | PURCHASE => _executePurchaseTransaction
  end.

Definition movement (op : operation) (w : world) :
    string → string → money → string → metadata → database →
    outcome response * database :=
  match op with
  | TOP_UP => topUp w
  | BONUS => issueBonus w
  | PURCHASE => purchase w
  end.

(** The account type of the system account a movement runs against, and
    the code of its transaction type. *)
Definition counterparty (op : operation) : string :=
  match op with
  | TOP_UP => "SYSTEM_TREASURY"
  | BONUS => "SYSTEM_BONUS"
  | PURCHASE => "SYSTEM_REVENUE"
  end.

Definition transaction_code (op : operation) : string :=
  match op with
  | TOP_UP => "TOP_UP"
  | BONUS => "BONUS"
  | PURCHASE => "PURCHASE"
  end.

(** The rows a movement resolves before it writes. *)
Record parties := {
  p_asset : uuid;
  p_user : uuid;
  p_system : uuid;
  p_type : uuid }.

Definition resolve (op : operation) (user code : string) (d : database)
    : option parties :=
  a ← head (select_asset_type code d);
  u ← head (select_user_account user d);
  s ← head (select_system_account (counterparty op) d);
  t ← head (select_transaction_type (transaction_code op) d);
  Some {| p_asset := a; p_user := u; p_system := s; p_type := t |}.

(** The account debited and the account credited. *)
Definition source (op : operation) (ps : parties) : uuid :=
  match op with PURCHASE => p_user ps | _ => p_system ps end.

Definition destination (op : operation) (ps : parties) : uuid :=
  match op with PURCHASE => p_system ps | _ => p_user ps end.

Section rows.
Variables (op : operation) (env : environment).
Variables (user code : string) (amt : money) (key : string) (md : metadata).
Variables (ps : parties) (d : database).

Definition header : transaction :=
  {| t_id := uuidv4 env;
     t_idempotency_key := key;
     t_transaction_type_id := p_type ps;
     t_asset_type_id := p_asset ps;
     t_amount := amt;
     t_description :=
       match op with
       | TOP_UP => match truthy (md_description md) with
                   | Some text => DescText text
                   | None => DescTopUp amt code
                   end
       | BONUS => match truthy (md_reason md) with
                  | Some text => DescText text
                  | None => DescBonus amt code
                  end
       | PURCHASE => match truthy (md_itemName md) with
                     | Some name => DescPurchaseItem name amt code
                     | None => DescPurchase amt code
                     end
       end;
     t_metadata := md;
     t_status := completed;
     t_created_at := CURRENT_TIMESTAMP env;
     t_completed_at := Some (date_completed env) |}.

Definition debit_entry : ledger_entry :=
  {| le_transaction_id := uuidv4 env;
     le_account_id := source op ps;
     le_asset_type_id := p_asset ps;
     le_entry_type := debit;
     le_amount := amt;
     le_running_balance :=
       (cached_balance (source op ps) (p_asset ps) d - amt)%Z;
     le_description :=
       match op with
       | TOP_UP => "Debit from treasury for user top-up"
       | BONUS => "Debit from bonus pool"
       | PURCHASE => "Debit from user for purchase"
       end;
     le_created_at := CURRENT_TIMESTAMP env |}.

Definition credit_entry : ledger_entry :=
  {| le_transaction_id := uuidv4 env;
     le_account_id := destination op ps;
     le_asset_type_id := p_asset ps;
     le_entry_type := credit;
     le_amount := amt;
     le_running_balance :=
       (cached_balance (destination op ps) (p_asset ps) d + amt)%Z;
     le_description :=
       match op with
       | TOP_UP => "Credit to user wallet"
       | BONUS => "Bonus credit to user"
       | PURCHASE => "Revenue from user purchase"
       end;
     le_created_at := CURRENT_TIMESTAMP env |}.

(** The balance-cache row written for the account of a ledger entry. *)
Definition cache_row (e : ledger_entry) : balance_cache_row :=
  {| bc_balance := le_running_balance e;
     bc_last_transaction_id := uuidv4 env;
     bc_updated_at := CURRENT_TIMESTAMP env |}.

Definition response_data : response :=
  {| transactionId := uuidv4 env;
     userId := user;
     assetCode := code;
     amount := amt;
     newBalance :=
       match op with
       | PURCHASE => le_running_balance debit_entry
       | _ => le_running_balance credit_entry
       end;
     reason := match op with BONUS => md_reason md | _ => None end;
     item := match op with PURCHASE => purchased_item md | _ => None end;
     timestamp_iso := date_response env |}.

Definition idempotency_record : idempotency_row :=
  {| il_request_hash := _hashRequest user code amt;
     il_response_data := response_data;
     il_status := "completed";
     il_created_at := CURRENT_TIMESTAMP env;
     il_expires_at := (CURRENT_TIMESTAMP env + idempotency_ttl)%Z |}.

Definition audit_record : audit_row :=
  {| al_transaction_id := uuidv4 env;
     al_account_id := p_user ps;
     al_action := transaction_code op;
     al_request_userId := user;
     al_request_assetCode := code;
     al_request_amount := amt;
     al_request_extra :=
       match op with
       | TOP_UP => Some key
       | BONUS => md_reason md
       | PURCHASE => purchased_item md
       end |}.

(** The state a movement commits: the writes of the ledger writer, in
    the order it makes them.  That the three transaction functions commit
    this state, built from these rows, is lemma [execute_Return]. *)
Definition posted : database :=
  with_audit_log (λ l, l ++ [audit_record])
    (with_idempotency_log (λ m, <[key := idempotency_record]> m)
       (with_balance_cache
          (λ m, <[(destination op ps, p_asset ps) := cache_row credit_entry]> m)
          (with_balance_cache
             (λ m, <[(source op ps, p_asset ps) := cache_row debit_entry]> m)
             (with_ledger_entries (λ l, l ++ [credit_entry])
                (with_ledger_entries (λ l, l ++ [debit_entry])
                   (with_transactions (λ l, l ++ [header]) d)))))).
End rows.

(** ** The quantities the properties speak of *)

(** The ledger entries of a transaction, and the headers under a key. *)
Definition entries_of (tx : uuid) (d : database) : list ledger_entry :=
  filter (λ e, le_transaction_id e = tx) (ledger_entries d).

Definition headers_with_key (key : string) (d : database) : list transaction :=
  filter (λ t, t_idempotency_key t = key) (transactions d).

(** [+amount] for a credit, [-amount] for a debit. *)
Definition signed (e : ledger_entry) : money :=
  match le_entry_type e with
  | credit => le_amount e
  | debit => (- le_amount e)%Z
  end.

(** Sum of credits minus sum of debits of one account in one asset. *)
Definition ledger_sum (account_id asset_type_id : uuid)
    (entries : list ledger_entry) : money :=
  foldr (λ e acc,
           if decide (le_account_id e = account_id
                      ∧ le_asset_type_id e = asset_type_id)
           then (signed e + acc)%Z else acc)
        0%Z entries.

Definition ledger_balance (account_id asset_type_id : uuid) (d : database)
    : money :=
  ledger_sum account_id asset_type_id (ledger_entries d).

(** [transaction_id UUID NOT NULL REFERENCES transactions(id)] *)
Definition ledger_references_transactions (d : database) : Prop :=
  Forall (λ e, Exists (λ t, t_id t = le_transaction_id e) (transactions d))
         (ledger_entries d).


(** The cache agrees with the ledger on a pair. *)
Definition cache_agrees (d : database) (pair : uuid * uuid) : Prop :=
  cached_balance pair.1 pair.2 d = ledger_balance pair.1 pair.2 d.

(** No other worker commits anything during the call. *)
Definition quiet (w : world) : Prop := ∀ n d, concurrent w n d = d.

(** No other session holds a row lock or conflicts with the commit. *)
Definition uncontended (env : environment) : Prop :=
  locked_elsewhere env = ∅ ∧ serialization_conflict env = false.

(** A movement that meets no obstacle but, possibly, the balance of its
    source: its rows resolve to [ps], nothing contends with it, the amount
    is positive, the drawn identifier and the idempotency key are new, and
    the balance of the destination is not negative. *)
Definition admissible (op : operation) (env : environment)
    (user code : string) (amt : money) (key : string) (d : database)
    (ps : parties) : Prop :=
  resolve op user code d = Some ps
  ∧ uncontended env
  ∧ (0 < amt)%Z
  ∧ ¬ Exists (λ t, t_id t = uuidv4 env ∨ t_idempotency_key t = key)
             (transactions d)
  ∧ idempotency_log d !! key = None
  ∧ (0 ≤ cached_balance (destination op ps) (p_asset ps) d)%Z.

(** A sequence of calls with the same user, asset, amount and key: each
    call has its operation, its metadata and its world. *)
Record call := {
  c_operation : operation;
  c_metadata : metadata;
  c_world : world }.

Fixpoint run_calls (user code : string) (amt : money) (key : string)
    (calls : list call) (d : database)
    : list (outcome response) * database :=
  match calls with
  | [] => ([], d)
  | c :: rest =>
      let '(r, d1) := movement (c_operation c) (c_world c) user code amt key
                        (c_metadata c) d in
      let '(rs, d2) := run_calls user code amt key rest d1 in
      (r :: rs, d2)
  end.

(** [l1] then [l2]: the steps of [pattern] occur in [trace] in that
    order. *)
Definition in_order (pattern trace : list step) : Prop :=
  pattern `sublist_of` trace.

(** The writes of the ledger writer and the commit, as the statements of
    a movement. *)
Definition ledger_script (op : operation) (ps : parties) : list step :=
  [ InsertTransaction;
    InsertLedgerEntry debit (source op ps);
    InsertLedgerEntry credit (destination op ps);
    UpsertBalanceCache (source op ps);
    UpsertBalanceCache (destination op ps);
    InsertIdempotencyLog; InsertAuditLog; Commit ].

(** The rows [lock_nowait] gets before it meets one held elsewhere. *)
Fixpoint free_prefix (held : gset uuid) (ids : list uuid) : list uuid :=
  match ids with
  | [] => []
  | i :: rest => if decide (i ∈ held) then [] else i :: free_prefix held rest
  end.

(** The connection after the [catch] block has run. *)
Definition rolled_back (c : connection) : connection :=
  written (committed (issued Rollback c)) (issued Rollback c).

(** ** A seeded database and a quiet world, for the examples *)

Module Sample.

Definition GOLD_COIN : uuid := 1%N.
Definition user_001_account : uuid := 50%N.
Definition treasury_account : uuid := 20%N.
Definition revenue_account : uuid := 60%N.
Definition bonus_account : uuid := 70%N.

(** The state after seeding: treasury 10,000,000, bonus pool 1,000,000
    and user_001 500 GOLD_COIN, each opened by a one-sided adjustment.
    The treasury id is below the id of the user account, the ids of the
    revenue and bonus accounts are above it. *)
Definition seeded : database :=
  {| asset_types := [ {| at_id := GOLD_COIN; at_code := "GOLD_COIN";
                         at_is_active := true |} ];
     account_types := [ {| acty_id := 1; acty_code := "USER" |};
                        {| acty_id := 2; acty_code := "SYSTEM_TREASURY" |};
                        {| acty_id := 3; acty_code := "SYSTEM_REVENUE" |};
                        {| acty_id := 4; acty_code := "SYSTEM_BONUS" |} ];
     accounts :=
       [ {| acc_id := treasury_account; acc_account_type_id := 2;
            acc_user_id := None; acc_is_active := true |};
         {| acc_id := user_001_account; acc_account_type_id := 1;
            acc_user_id := Some "user_001"; acc_is_active := true |};
         {| acc_id := revenue_account; acc_account_type_id := 3;
            acc_user_id := None; acc_is_active := true |};
         {| acc_id := bonus_account; acc_account_type_id := 4;
            acc_user_id := None; acc_is_active := true |} ];
     transaction_types := [ {| tt_id := 1; tt_code := "TOP_UP" |};
                            {| tt_id := 2; tt_code := "BONUS" |};
                            {| tt_id := 3; tt_code := "PURCHASE" |};
                            {| tt_id := 4; tt_code := "ADJUSTMENT" |} ];
     transactions :=
       (λ '(id, key, amount),
          {| t_id := id; t_idempotency_key := key;
             t_transaction_type_id := 4; t_asset_type_id := GOLD_COIN;
             t_amount := amount; t_description := DescText "Initial balance";
             t_metadata := {| md_description := None; md_reason := None;
                              md_itemName := None; md_itemId := None |};
             t_status := completed; t_created_at := 0;
             t_completed_at := Some 0%Z |})
       <$> [ (101%N, "INIT_TREASURY_GOLD", 10000000%Z);
             (102%N, "INIT_BONUS_GOLD", 1000000%Z);
             (103%N, "INIT_USER_001_GOLD", 500%Z) ];
     ledger_entries :=
       (λ '(id, account, amount),
          {| le_transaction_id := id; le_account_id := account;
             le_asset_type_id := GOLD_COIN; le_entry_type := credit;
             le_amount := amount; le_running_balance := amount;
             le_description := "Initial balance"; le_created_at := 0 |})
       <$> [ (101%N, treasury_account, 10000000%Z);
             (102%N, bonus_account, 1000000%Z);
             (103%N, user_001_account, 500%Z) ];
     balance_cache :=
       list_to_map
         [ ((treasury_account, GOLD_COIN),
            {| bc_balance := 10000000; bc_last_transaction_id := 101;
               bc_updated_at := 0 |});
           ((bonus_account, GOLD_COIN),
            {| bc_balance := 1000000; bc_last_transaction_id := 102;
               bc_updated_at := 0 |});
           ((user_001_account, GOLD_COIN),
            {| bc_balance := 500; bc_last_transaction_id := 103;
               bc_updated_at := 0 |}) ];
     idempotency_log := ∅;
     audit_log := [] |}.

(** An execution at time [now] drawing the identifier [id], with no
    contention from other sessions. *)
Definition calm (id : uuid) (now : timestamp) : environment :=
  {| uuidv4 := id; CURRENT_TIMESTAMP := now; date_completed := now;
     date_response := now; locked_elsewhere := ∅;
     serialization_conflict := false |}.

(** A call at time [now] with no other worker active; its attempt [n]
    draws the identifier [id + n]. *)
Definition alone (id : uuid) (now : timestamp) : world :=
  {| lookup_time := now;
     attempt_env := λ n, calm (id + N.of_nat n) now;
     concurrent := λ _ d, d |}.

Definition no_metadata : metadata :=
  {| md_description := None; md_reason := None;
     md_itemName := None; md_itemId := None |}.

Definition epic_shield : metadata :=
  {| md_description := None; md_reason := None;
     md_itemName := Some "Epic Shield"; md_itemId := None |}.

Definition GOLD_parties (op : operation) : parties :=
  {| p_asset := GOLD_COIN; p_user := user_001_account;
     p_system := match op with
                 | TOP_UP => treasury_account
                 | BONUS => bonus_account
                 | PURCHASE => revenue_account
                 end;
     p_type := match op with TOP_UP => 1 | BONUS => 2 | PURCHASE => 3 end |}.

(** One execution of each kind on the seeded database. *)
Definition topup_k1 : outcome response * connection :=
  execute TOP_UP (calm 1000 10) "user_001" "GOLD_COIN" 100 "k1" no_metadata
    (connect seeded).

Definition topup_k1_response : response :=
  {| transactionId := 1000; userId := "user_001"; assetCode := "GOLD_COIN";
     amount := 100; newBalance := 600; reason := None; item := None;
     timestamp_iso := 10 |}.

Definition purchase_k2 : outcome response * connection :=
  execute PURCHASE (calm 1000 10) "user_001" "GOLD_COIN" 25 "k2" epic_shield
    (connect seeded).

Definition purchase_k2_response : response :=
  {| transactionId := 1000; userId := "user_001"; assetCode := "GOLD_COIN";
     amount := 25; newBalance := 475; reason := None;
     item := Some "Epic Shield"; timestamp_iso := 10 |}.

Definition purchase_k3 : outcome response * connection :=
  execute PURCHASE (calm 1000 10) "user_001" "GOLD_COIN" 10000 "k3"
    no_metadata (connect seeded).

(** Calls of the service. *)
Definition call_at (op : operation) (id : uuid) (now : timestamp) : call :=
  {| c_operation := op; c_metadata := no_metadata; c_world := alone id now |}.

(** The response of the top-up of 100 called at time 10: its first
    attempt draws the identifier 1001. *)
Definition topup_call_response : response :=
  {| transactionId := 1001; userId := "user_001"; assetCode := "GOLD_COIN";
     amount := 100; newBalance := 600; reason := None; item := None;
     timestamp_iso := 10 |}.

(** The database after that call. *)
Definition after_k1 : database :=
  (topUp (alone 1000 10) "user_001" "GOLD_COIN" 100 "k1" no_metadata seeded).2.

(** The idempotency record that call has stored. *)
Definition k1_record : idempotency_row :=
  {| il_request_hash := _hashRequest "user_001" "GOLD_COIN" 100;
     il_response_data := topup_call_response;
     il_status := "completed";
     il_created_at := 10;
     il_expires_at := 10 + idempotency_ttl |}.

(** A call at time 20 that loses a race: between its idempotency lookup
    and its first attempt, another worker commits the top-up of 100
    under the same key. *)
Definition racing : world :=
  {| lookup_time := 20;
     attempt_env := λ n, calm (2000 + N.of_nat n) 20;
     concurrent := λ n d,
       match n with
       | 1%nat => (topUp (alone 1000 10) "user_001" "GOLD_COIN" 100 "k1"
                     no_metadata d).2
       | _ => d
       end |}.

End Sample.

(** ** Invariants of the persisted state *)

(** [balance DECIMAL(20, 8) DEFAULT 0 CHECK (balance >= 0)] on every row
    of the cache. *)
Definition cache_nonnegative (d : database) : Prop :=
  map_Forall (λ _ row, (0 ≤ bc_balance row)%Z) (balance_cache d).

(** The primary key [id] and [idempotency_key ... UNIQUE] of
    [transactions]. *)
Definition headers_distinct (d : database) : Prop :=
  NoDup (t_id <$> transactions d)
  ∧ NoDup (t_idempotency_key <$> transactions d).

(** The (account, asset) pairs that have a cache row or a ledger entry. *)
Definition known_pairs (d : database) : list (uuid * uuid) :=
  (map_to_list (balance_cache d)).*1
  ++ ((λ e, (le_account_id e, le_asset_type_id e)) <$> ledger_entries d).

(** The cache agrees with the ledger on every pair. *)
Definition cache_consistent (d : database) : Prop :=
  Forall (cache_agrees d) (known_pairs d).

(** Credits minus debits of one asset, over all accounts. *)
Definition asset_total (asset_type_id : uuid) (entries : list ledger_entry)
    : money :=
  foldr (λ e acc,
           if decide (le_asset_type_id e = asset_type_id)
           then (signed e + acc)%Z else acc)
        0%Z entries.

(** ** The read side of transactionService.js *)

Module Reads.

(** The [name] columns of [asset_types] and [transaction_types], which no
    movement reads: both are [NOT NULL], they are kept as functions of
    the primary key. *)
Record labels := {
  asset_type_name : uuid → string;
  transaction_type_name : uuid → string }.

(** What [getBalance] returns. *)
Record balance_result := {
  br_userId : string;
  br_assetCode : string;
  br_assetName : option string;        (* [null] when no row is found *)
  br_balance : money }.

(** What [getAllBalances] returns. *)
Record balance_item := {
  bi_assetCode : string;
  bi_assetName : string;
  bi_balance : money }.

Record balances_result := {
  bs_userId : string;
  bs_balances : list balance_item }.

(** What [getTransactionHistory] returns. *)
Record history_item := {
  h_id : uuid;
  h_type : string;
  h_typeCode : string;
  h_asset : string;
  h_assetCode : string;
  h_amount : money;
  h_entryType : entry_type;
  h_runningBalance : money;
  h_description : description;
  h_metadata : metadata;
  h_status : status;
  h_timestamp : timestamp }.

Record history_result := {
  hr_userId : string;
  hr_transactions : list history_item;
  hr_limit : Z;
  hr_offset : Z }.

(** [rows LEFT JOIN ... ON ...]: a row without a match is kept, with
    NULLs on the right. *)
Definition left_join {A B} (rows : list A) (matching : A → list B)
    : list (A * option B) :=
  r ← rows;
  match matching r with
  | [] => [(r, None)]
  | matches => (λ m, (r, Some m)) <$> matches
  end.

(** [ORDER BY t.created_at DESC] *)
Definition newer_first (r1 r2 : history_item) : Prop :=
  (h_timestamp r2 ≤ h_timestamp r1)%Z.

#[global] Instance newer_first_dec : RelDecision newer_first.
Proof. intros r1 r2. unfold newer_first. apply _. Defined.

Definition invalid_row_count_in_limit_clause : string := "2201W".
Definition invalid_row_count_in_result_offset_clause : string := "2201X".

Section reads.
Variable names : labels.
(** The collation of the server, which orders [ORDER BY code]. *)
Context (collate : string → string → Prop) `{∀ x y, Decision (collate x y)}.

(** [SELECT bc.balance, at.name as asset_name, at.code as asset_code
     FROM balance_cache bc
     JOIN accounts a ON bc.account_id = a.id
     JOIN asset_types at ON bc.asset_type_id = at.id
     WHERE a.user_id = $1 AND at.code = $2]; the order of the rows is
    the one the server happens to produce. *)
Definition select_balance (userId assetCode : string) (d : database)
    : list (money * string * string) :=
  bc ← map_to_list (balance_cache d);
  a ← filter (λ a, acc_id a = bc.1.1 ∧ acc_user_id a = Some userId)
             (accounts d);
  t ← filter (λ t, at_id t = bc.1.2 ∧ at_code t = assetCode) (asset_types d);
  [(bc_balance bc.2, asset_type_name names (at_id t), at_code t)].

(** [getBalance(userId, assetCode)] *)
Definition getBalance (userId assetCode : string) (d : database)
    : balance_result :=
  match select_balance userId assetCode d with
  | [] =>
      {| br_userId := userId; br_assetCode := assetCode;
         br_balance := 0; br_assetName := None |}
  | (balance, asset_name, asset_code) :: _ =>
      {| br_userId := userId; br_assetCode := asset_code;
         br_assetName := Some asset_name; br_balance := balance |}
  end.

(** [SELECT at.code as asset_code, at.name as asset_name, bc.balance
     FROM accounts a
     LEFT JOIN balance_cache bc ON a.id = bc.account_id
     LEFT JOIN asset_types at ON bc.asset_type_id = at.id
     WHERE a.user_id = $1 AND at.is_active = true
     ORDER BY at.code]: the condition on [at.is_active] is not true on
    the NULLs of a row without a match. *)
Definition select_balances (userId : string) (d : database)
    : list (string * string * money) :=
  merge_sort (λ r1 r2, collate r1.1.1 r2.1.1)
    (row ← left_join
              (left_join (accounts d)
                 (λ a, filter (λ bc, bc.1.1 = acc_id a)
                              (map_to_list (balance_cache d))))
              (λ joined,
                 match joined.2 with
                 | Some bc => filter (λ t, at_id t = bc.1.2) (asset_types d)
                 | None => []
                 end);
     match row with
     | (a, Some bc, Some t) =>
         if decide (acc_user_id a = Some userId ∧ at_is_active t = true)
         then [(at_code t, asset_type_name names (at_id t), bc_balance bc.2)]
         else []
     | _ => []
     end).

(** [SELECT code as asset_code, name as asset_name FROM asset_types
     WHERE is_active = true ORDER BY code] *)
Definition select_active_asset_types (d : database) : list (string * string) :=
  merge_sort (λ r1 r2, collate r1.1 r2.1)
    ((λ t, (at_code t, asset_type_name names (at_id t)))
     <$> filter (λ t, at_is_active t = true) (asset_types d)).

(** [getAllBalances(userId)] *)
Definition getAllBalances (userId : string) (d : database) : balances_result :=
  let balances :=
    (λ row : string * string * money,
       {| bi_assetCode := row.1.1; bi_assetName := row.1.2;
          bi_balance := row.2 |})
    <$> select_balances userId d in
  (* If user has no balances, return all asset types with 0 balance *)
  if decide (length balances = 0%nat
             ∨ Forall (λ b, bi_assetCode b = EmptyString) balances)
  then
    {| bs_userId := userId;
       bs_balances :=
         (λ row : string * string,
            {| bi_assetCode := row.1; bi_assetName := row.2;
               bi_balance := 0 |})
         <$> select_active_asset_types d |}
  else
    {| bs_userId := userId;
       bs_balances := filter (λ b, bi_assetCode b ≠ EmptyString) balances |}.

(** [SELECT t.id, ..., le.entry_type, le.running_balance
     FROM transactions t
     JOIN ledger_entries le ON t.id = le.transaction_id
     JOIN accounts a ON le.account_id = a.id
     JOIN transaction_types tt ON t.transaction_type_id = tt.id
     JOIN asset_types at ON t.asset_type_id = at.id
     WHERE a.user_id = $1
     ORDER BY t.created_at DESC]; the order of two rows of the same
    [created_at] is the one the server happens to produce. *)
Definition select_history (userId : string) (d : database) : list history_item :=
  merge_sort newer_first
    (t ← transactions d;
     le ← filter (λ le, le_transaction_id le = t_id t) (ledger_entries d);
     a ← filter (λ a, acc_id a = le_account_id le
                      ∧ acc_user_id a = Some userId) (accounts d);
     tt ← filter (λ tt, tt_id tt = t_transaction_type_id t)
                 (transaction_types d);
     at' ← filter (λ at', at_id at' = t_asset_type_id t) (asset_types d);
     [ {| h_id := t_id t;
          h_type := transaction_type_name names (tt_id tt);
          h_typeCode := tt_code tt;
          h_asset := asset_type_name names (at_id at');
          h_assetCode := at_code at';
          h_amount := t_amount t;
          h_entryType := le_entry_type le;
          h_runningBalance := le_running_balance le;
          h_description := t_description t;
          h_metadata := t_metadata t;
          h_status := t_status t;
          h_timestamp := t_created_at t |} ]).

(** [... LIMIT $2 OFFSET $3]: the server refuses a negative count. *)
Definition limit_offset {A} (limit offset : Z) (rows : list A)
    : outcome (list A) :=
  if decide (offset < 0)%Z
  then Throw (DatabaseError invalid_row_count_in_result_offset_clause)
  else if decide (limit < 0)%Z
  then Throw (DatabaseError invalid_row_count_in_limit_clause)
  else Return (take (Z.to_nat limit) (drop (Z.to_nat offset) rows)).

(** [getTransactionHistory(userId, limit = 50, offset = 0)] *)
Definition getTransactionHistory (userId : string) (limit offset : option Z)
    (d : database) : outcome history_result :=
  let limit := default 50%Z limit in
  let offset := default 0%Z offset in
  match limit_offset limit offset (select_history userId d) with
  | Return rows =>
      Return {| hr_userId := userId; hr_transactions := rows;
                hr_limit := limit; hr_offset := offset |}
  | Throw e => Throw e
  end.

End reads.
End Reads.
Export Reads.

(** What [getBalance] answers when it finds no row. *)
Definition no_balance (user code : string) : balance_result :=
  {| br_userId := user; br_assetCode := code; br_balance := 0;
     br_assetName := None |}.

(** The user has one account, [account]: [accounts.user_id] is not
    unique in the schema. *)
Definition sole_account (user : string) (account : uuid) (d : database) : Prop :=
  Exists (λ a, acc_user_id a = Some user) (accounts d)
  ∧ Forall (λ a, acc_user_id a = Some user → acc_id a = account) (accounts d).

(** [code VARCHAR(50) UNIQUE NOT NULL]: the code names one asset type,
    [asset]. *)
Definition sole_asset_type (code : string) (asset : uuid) (d : database) : Prop :=
  Exists (λ t, at_code t = code) (asset_types d)
  ∧ Forall (λ t, at_code t = code → at_id t = asset) (asset_types d).

(** ** Names, a collation and contended worlds, for the examples *)

Module SampleReads.
Import Sample.

Definition names : labels :=
  {| asset_type_name := λ id,
       if decide (id = GOLD_COIN) then "Gold Coins" else "Diamonds";
     transaction_type_name := λ id,
       if decide (id = 1%N) then "Top Up"
       else if decide (id = 2%N) then "Bonus"
       else if decide (id = 3%N) then "Purchase" else "Adjustment" |}.

(** The collation "C": strings compare byte by byte. *)
Definition byte_order (x y : string) : Prop := String.leb x y = true.

#[global] Instance byte_order_dec x y : Decision (byte_order x y).
Proof. unfold byte_order. apply _. Defined.

(** An execution during which another session holds the row of
    user_001's account. *)
Definition contended (id : uuid) (now : timestamp) : environment :=
  {| uuidv4 := id; CURRENT_TIMESTAMP := now; date_completed := now;
     date_response := now; locked_elsewhere := {[ user_001_account ]};
     serialization_conflict := false |}.

(** A call whose first two attempts find that row locked. *)
Definition busy : world :=
  {| lookup_time := 10;
     attempt_env := λ n,
       if decide (n < 3)%nat then contended (1000 + N.of_nat n) 10
       else calm (1000 + N.of_nat n) 10;
     concurrent := λ _ d, d |}.

(** A call all of whose attempts find it locked. *)
Definition stuck : world :=
  {| lookup_time := 10;
     attempt_env := λ n, contended (1000 + N.of_nat n) 10;
     concurrent := λ _ d, d |}.

(** The response of the third attempt of the top-up of 100. *)
Definition third_attempt_response : response :=
  {| transactionId := 1003; userId := "user_001"; assetCode := "GOLD_COIN";
     amount := 100; newBalance := 600; reason := None; item := None;
     timestamp_iso := 10 |}.

(** The attempts the retry driver makes for that call. *)
Definition retried : nat → database → outcome response * database :=
  attempt busy
    (λ env, execute TOP_UP env "user_001" "GOLD_COIN" 100 "k1" no_metadata).

(** What user_001 is shown after the top-up of 100 at time 10. *)
Definition balance_after_k1 : balance_item :=
  {| bi_assetCode := "GOLD_COIN"; bi_assetName := "Gold Coins";
     bi_balance := 600 |}.

Definition topup_row : history_item :=
  {| h_id := 1000; h_type := "Top Up"; h_typeCode := "TOP_UP";
     h_asset := "Gold Coins"; h_assetCode := "GOLD_COIN";
     h_amount := 100; h_entryType := credit; h_runningBalance := 600;
     h_description := DescTopUp 100 "GOLD_COIN";
     h_metadata := no_metadata; h_status := completed; h_timestamp := 10 |}.

Definition initial_row : history_item :=
  {| h_id := 103; h_type := "Adjustment"; h_typeCode := "ADJUSTMENT";
     h_asset := "Gold Coins"; h_assetCode := "GOLD_COIN";
     h_amount := 500; h_entryType := credit; h_runningBalance := 500;
     h_description := DescText "Initial balance";
     h_metadata := no_metadata; h_status := completed; h_timestamp := 0 |}.

Definition history_after_k1 : history_result :=
  {| hr_userId := "user_001";
     hr_transactions := [topup_row; initial_row];
     hr_limit := 50; hr_offset := 0 |}.

End SampleReads.

(** * Properties *)

(** ** Running a transaction step by step *)

Lemma locked_locked l1 l2 c : locked l2 (locked l1 c) = locked (l1 ++ l2) c.
Proof. unfold locked; simpl. by rewrite <- app_assoc. Qed.

Lemma locked_nil c : locked [] c = c.
Proof. destruct c; unfold locked; simpl. by rewrite app_nil_r. Qed.

Lemma free_prefix_all held ids :
  Forall (λ i, i ∉ held) ids → free_prefix held ids = ids.
Proof.
  induction 1 as [|i rest Hi _ IH]; simpl; [done|].
  by rewrite decide_False, IH.
Qed.

Lemma free_prefix_prefix held ids : free_prefix held ids `prefix_of` ids.
Proof.
  induction ids as [|i rest IH]; simpl; [done|].
  case_decide; [apply prefix_nil | by apply prefix_cons].
Qed.

Lemma lock_nowait_eq held ids c :
  lock_nowait held ids c =
  (if decide (Forall (λ i, i ∉ held) ids) then Return ()
   else Throw (DatabaseError lock_not_available),
   locked (free_prefix held ids) c).
Proof.
  revert c; induction ids as [|i rest IH]; intros c.
  - rewrite decide_True by constructor. by rewrite locked_nil.
  - cbn [lock_nowait free_prefix]. destruct (decide (i ∈ held)) as [Hi|Hi].
    + rewrite locked_nil, decide_False; [done|].
      intros H; inversion H; subst; contradiction.
    + unfold mbind, Tx_bind, modify. rewrite IH, locked_locked.
      destruct (decide (Forall (λ i, i ∉ held) rest)) as [Hr|Hr].
      * by rewrite decide_True by (by constructor).
      * rewrite decide_False; [done|].
        intros H; inversion H; subst; contradiction.
Qed.

Section run.
Context {A B : Type}.
Implicit Types (k : A → Tx B) (c : connection).

Lemma run_assoc {C} (m : Tx C) (f : C → Tx A) k c :
  ((m ≫= f) ≫= k) c = (m ≫= (λ x, f x ≫= k)) c.
Proof. unfold mbind, Tx_bind. by destruct (m c) as [[]]. Qed.

Lemma run_ret (a : A) k c : (mret a ≫= k) c = k a c.
Proof. done. Qed.

Lemma run_throw e k c : (throw e ≫= k) c = (Throw e, c).
Proof. done. Qed.

Lemma run_modify f (k : () → Tx B) c : (modify f ≫= k) c = k () (f c).
Proof. done. Qed.

Lemma run_issue s (k : () → Tx B) c : (issue s ≫= k) c = k () (issued s c).
Proof. done. Qed.

Lemma run_read (f : database → A) k c :
  (read f ≫= k) c = k (f (working c)) c.
Proof. done. Qed.

Lemma run_write f (k : () → Tx B) c :
  (write f ≫= k) c =
  match f (working c) with
  | Return d => k () (written d c)
  | Throw e => (Throw e, c)
  end.
Proof. unfold mbind, Tx_bind, write. by destruct (f (working c)). Qed.

Lemma run_first_row (rows : list A) e k c :
  (first_row rows e ≫= k) c =
  match rows with
  | [] => (Throw e, c)
  | r :: _ => k r c
  end.
Proof. by destruct rows. Qed.

Lemma run_lock held ids (k : () → Tx B) c :
  (lock_nowait held ids ≫= k) c =
  if decide (Forall (λ i, i ∉ held) ids)
  then k () (locked ids c)
  else (Throw (DatabaseError lock_not_available),
        locked (free_prefix held ids) c).
Proof.
  unfold mbind, Tx_bind. rewrite lock_nowait_eq.
  case_decide; [|done]. by rewrite free_prefix_all.
Qed.

Lemma run_ifb (b : bool) (m1 m2 : Tx A) k c :
  ((if b then m1 else m2) ≫= k) c =
  if b then (m1 ≫= k) c else (m2 ≫= k) c.
Proof. by destruct b. Qed.

Lemma run_if (P : Prop) `{Decision P} (m1 m2 : Tx A) k c :
  ((if decide P then m1 else m2) ≫= k) c =
  if decide P then (m1 ≫= k) c else (m2 ≫= k) c.
Proof. by case_decide. Qed.
End run.


Lemma try_catch_rollback {A} (body : Tx A) c o c' :
  try_catch body (λ error, ROLLBACK;; throw error) c = (o, c') →
  ∃ c1, body c = (o, c1)
        ∧ c' = match o with Return _ => c1 | Throw _ => rolled_back c1 end.
Proof.
  unfold try_catch. destruct (body c) as [[a|e] c1]; intros [= <- <-]; eauto.
Qed.

Ltac tx_unfold H :=
  unfold execute, _executeTopUpTransaction, _executeIssueBonusTransaction,
    _executePurchaseTransaction in H;
  apply try_catch_rollback in H as (? & H & ->);
  unfold BEGIN, COMMIT, ROLLBACK,
    add_transaction, add_ledger_entry, record_idempotency, _createAuditLog,
    _updateBalanceCache, _getBalance, lock_account, lock_accounts_ordered,
    insert_transaction, insert_ledger_entry, upsert_balance_cache,
    insert_idempotency_log, insert_audit_log in H;
  cbn zeta in H.


Ltac tx_simpl H :=
  cbn beta iota zeta in H;
  cbn [working committed row_locks statements issued written locked published connect] in H;
  repeat change (cached_balance ?a ?t (with_transactions ?f ?d))
    with (cached_balance a t d) in H.


Ltac tx_rewrite H :=
  lazymatch type of H with
  | ((_ ≫= _) ≫= _) _ = _ => rewrite run_assoc in H
  | (issue _ ≫= _) _ = _ => rewrite run_issue in H
  | (modify _ ≫= _) _ = _ => rewrite run_modify in H
  | (read _ ≫= _) _ = _ => rewrite run_read in H
  | (mret _ ≫= _) _ = _ => rewrite run_ret in H
  | (throw _ ≫= _) _ = _ => rewrite run_throw in H
  | (first_row _ _ ≫= _) _ = _ => rewrite run_first_row in H
  | (write _ ≫= _) _ = _ => rewrite run_write in H
  | (lock_nowait _ _ ≫= _) _ = _ => rewrite run_lock in H
  | ((if decide _ then _ else _) ≫= _) _ = _ => rewrite run_if in H
  | ((if _ then _ else _) ≫= _) _ = _ => rewrite run_ifb in H
  end;
  tx_simpl H.

Ltac tx_case H :=
  lazymatch type of H with
  | (match ?rows with [] => _ | _ :: _ => _ end) = _ =>
      destruct rows eqn:?
  | (if decide ?P then _ else _) = _ => destruct (decide P)
  | (if ?b then _ else _) = _ => destruct b eqn:?
  | (match (if decide ?P then _ else _) with Return _ => _ | Throw _ => _ end) = _ =>
      destruct (decide P)
  | (match (match ?o with Some _ => _ | None => _ end) with Return _ => _ | Throw _ => _ end) = _ =>
      destruct o eqn:?
  end; tx_simpl H.

Ltac tx_run H := tx_unfold H; repeat first [tx_rewrite H | tx_case H].
Ltac tx_run_Return H :=
  tx_unfold H; repeat first [tx_rewrite H | tx_case H; try discriminate H].


Ltac tx_resolved :=
  unfold resolve; cbn [counterparty transaction_code];
  repeat match goal with
         | E : select_asset_type _ _ = _ |- _ => rewrite E
         | E : select_user_account _ _ = _ |- _ => rewrite E
         | E : select_system_account _ _ = _ |- _ => rewrite E
         | E : select_transaction_type _ _ = _ |- _ => rewrite E
         end;
  cbn [head mbind option_bind].

Ltac tx_resolved_in H :=
  unfold resolve in H; cbn [counterparty transaction_code] in H;
  repeat match goal with
         | E : select_asset_type _ _ = _ |- _ => rewrite E in H
         | E : select_user_account _ _ = _ |- _ => rewrite E in H
         | E : select_system_account _ _ = _ |- _ => rewrite E in H
         | E : select_transaction_type _ _ = _ |- _ => rewrite E in H
         end;
  cbn [head mbind option_bind] in H.

Ltac in_order_solve :=
  unfold in_order, ledger_script; simpl;
  repeat first [apply sublist_nil | apply sublist_skip | apply sublist_cons].

Lemma execute_Return op env u a amt k md d r c' :
  execute op env u a amt k md (connect d) = (Return r, c') →
  ∃ ps, resolve op u a d = Some ps
        ∧ r = response_data op env u a amt md ps d
        ∧ committed c' = posted op env u a amt k md ps d
        ∧ (0 < amt)%Z
        ∧ (amt ≤ cached_balance (source op ps) (p_asset ps) d)%Z
        ∧ ¬ Exists (λ t, t_id t = uuidv4 env ∨ t_idempotency_key t = k)
                   (transactions d)
        ∧ idempotency_log d !! k = None
        ∧ in_order (ledger_script op ps) (statements c').
Proof.
  intros H. destruct op.
  all: tx_run_Return H.
  all: injection H as <- <-.
  all: tx_resolved.
  all: eexists; split; [reflexivity|].
  all: simpl in *.
  all: repeat split; try done; try lia.
  all: in_order_solve.
Qed.

Lemma Forall_not_elem_of_empty (l : list uuid) (held : gset uuid) :
  held = ∅ → Forall (λ i, i ∉ held) l.
Proof. intros ->. apply Forall_forall. set_solver. Qed.

(** Why an execution throws, and what it leaves. *)
Lemma execute_Throw op env u a amt k md d e c' :
  execute op env u a amt k md (connect d) = (Throw e, c') →
  committed c' = d
  ∧ working c' = d
  ∧ last (statements c') = Some Rollback
  ∧ (is_InsufficientFunds e = true →
     ∃ ps, resolve op u a d = Some ps
           ∧ (cached_balance (source op ps) (p_asset ps) d < amt)%Z)
  ∧ (∀ ps, admissible op env u a amt k d ps → is_InsufficientFunds e = true)
  ∧ (∀ ps, resolve op u a d = Some ps → uncontended env → (0 < amt)%Z →
           (0 ≤ cached_balance (destination op ps) (p_asset ps) d)%Z →
           (amt ≤ cached_balance (source op ps) (p_asset ps) d)%Z →
           e = DatabaseError unique_violation).
Proof.
  intros H. destruct op.
  all: tx_run H.
  all: try discriminate H.
  all: injection H as <- <-.
  all: do 3 (split; [reflexivity|]).
  all: split;
    [first [ discriminate
           | intros _; tx_resolved; eexists; split; [reflexivity|];
             simpl in *; done ]|].
  all: split.
  all: try (intros; reflexivity).
  all: try (intros ps (Hres & [Hheld Hconf] & Hamt & Hnew & Hlog & Hdst)).
  all: try (intros ps Hres [Hheld Hconf] Hamt Hdst Hsrc).
  all: exfalso.
  all: tx_resolved_in Hres; try discriminate Hres.
  all: try (injection Hres as <-); simpl in *.
  all: try congruence; try lia; try done.
  all: try match goal with
           | H : ¬ Forall _ _ |- _ =>
               destruct H; by apply Forall_not_elem_of_empty
           end.
Qed.

(** ** Lock order and statement order on every run *)

Lemma StronglySorted_free_prefix held ids :
  StronglySorted N.le ids → StronglySorted N.le (free_prefix held ids).
Proof.
  intros Hs. destruct (free_prefix_prefix held ids) as [rest Hrest].
  rewrite Hrest in Hs. by apply StronglySorted_app_1_l in Hs.
Qed.

Lemma StronglySorted_select_accounts_ordered ids d :
  StronglySorted N.le (select_accounts_ordered ids d).
Proof. apply StronglySorted_merge_sort; apply _. Qed.

Ltac not_issued H :=
  simpl in H;
  repeat (apply elem_of_cons in H as [H|H]; [discriminate H|]);
  by apply elem_of_nil in H.

Lemma execute_locks_ascending op env u a amt k md d o c' :
  op ≠ TOP_UP →
  execute op env u a amt k md (connect d) = (o, c') →
  StronglySorted N.le (row_locks c').
Proof.
  intros Hop H. destruct op; [done| |].
  all: tx_run H.
  all: injection H as <- <-; simpl.
  all: first [ apply StronglySorted_select_accounts_ordered
             | apply StronglySorted_free_prefix,
                 StronglySorted_select_accounts_ordered
             | constructor ].
Qed.

Lemma purchase_checks_first env u a amt k md d o c' :
  _executePurchaseTransaction env u a amt k md (connect d) = (o, c') →
  InsertTransaction ∈ statements c' →
  ∃ ps, resolve PURCHASE u a d = Some ps
        ∧ in_order [CheckBalance (p_user ps); InsertTransaction] (statements c')
        ∧ (amt ≤ cached_balance (p_user ps) (p_asset ps) d)%Z.
Proof.
  intros H. change (execute PURCHASE env u a amt k md (connect d) = (o, c')) in H.
  tx_run H.
  all: injection H as <- <-; intros Hin.
  all: try (exfalso; not_issued Hin).
  all: tx_resolved; eexists; split; [reflexivity|]; simpl.
  all: split; [in_order_solve | lia].
Qed.

(** ** The retry driver *)

Section retry_driver.
Context {A : Type}.
Variable queryFunction : nat → database → outcome A * database.
Variable maxRetries : nat.

(** An attempt that throws has changed nothing. *)
Hypothesis failed_attempt :
  ∀ n d e d', queryFunction n d = (Throw e, d') → d' = d.

Lemma retry_loop_Return remaining n last d a d' :
  retry_loop queryFunction maxRetries remaining n last d = (Return a, d') →
  ∃ m, queryFunction m d = (Return a, d').
Proof using failed_attempt.
  revert n last. induction remaining as [|remaining IH]; intros n last;
    simpl; [done|].
  destruct (queryFunction n d) as [[a'|e] d1] eqn:Hq.
  - intros [= <- <-]. eauto.
  - apply failed_attempt in Hq as ->.
    destruct (negb (isRetriable e) || (n =? maxRetries)%nat); [done|].
    apply IH.
Qed.

Lemma retry_loop_Throw remaining n last d e d' :
  retry_loop queryFunction maxRetries remaining n last d = (Throw e, d') →
  d' = d.
Proof using failed_attempt.
  revert n last. induction remaining as [|remaining IH]; intros n last;
    simpl; [by intros [= _ <-]|].
  destruct (queryFunction n d) as [[a'|e1] d1] eqn:Hq; [done|].
  apply failed_attempt in Hq as ->.
  destruct (negb (isRetriable e1) || (n =? maxRetries)%nat).
  - by intros [= _ <-].
  - apply IH.
Qed.
End retry_driver.

(** A failure that is not retriable ends the loop at once. *)
Lemma executeWithRetry_not_retried {A}
    (queryFunction : nat → database → outcome A * database) maxRetries d e d' :
  (0 < maxRetries)%nat →
  queryFunction 1%nat d = (Throw e, d') →
  isRetriable e = false →
  executeWithRetry queryFunction maxRetries d = (Throw e, d').
Proof.
  intros Hpos Hq Hnot. unfold executeWithRetry.
  destruct maxRetries as [|m]; [lia|]. simpl. by rewrite Hq, Hnot.
Qed.

(** ** The orchestrators *)

Lemma movement_unfold op w u a amt k md d :
  movement op w u a amt k md d =
  validated_and_retried w (execute op) u a amt k md d.
Proof. by destruct op. Qed.

Lemma attempt_quiet w (body : environment → Tx response) n d :
  quiet w →
  attempt w body n d =
  ((body (attempt_env w n) (connect d)).1,
   committed (body (attempt_env w n) (connect d)).2).
Proof.
  intros Hq. unfold attempt. rewrite Hq.
  by destruct (body (attempt_env w n) (connect d)).
Qed.

Lemma attempt_Throw op w u a amt k md n d e d' :
  quiet w →
  attempt w (λ env, execute op env u a amt k md) n d = (Throw e, d') →
  d' = d.
Proof.
  intros Hq. rewrite attempt_quiet by done.
  destruct (execute op _ u a amt k md (connect d)) as [o c'] eqn:Hx.
  simpl. intros [= -> <-]. by apply execute_Throw in Hx as [? _].
Qed.

(** A call that fails leaves the database as it found it. *)
Lemma movement_Throw op w u a amt k md d e d' :
  quiet w →
  movement op w u a amt k md d = (Throw e, d') →
  d' = d.
Proof.
  intros Hq. rewrite movement_unfold. unfold validated_and_retried.
  repeat case_decide; try by intros [= _ <-].
  destruct (_checkIdempotency _ k d); [done|].
  apply retry_loop_Throw. intros *. by apply attempt_Throw.
Qed.

(** A call with a stored, live result returns it and touches nothing. *)
Lemma movement_replayed op w u a amt k md d r :
  ¬ missing_parameters u a amt k → (0 < amt)%Z →
  _checkIdempotency (lookup_time w) k d = Some r →
  movement op w u a amt k md d = (Return r, d).
Proof.
  intros Hm Hamt Hr. rewrite movement_unfold. unfold validated_and_retried.
  rewrite decide_False by done. rewrite decide_False by lia. by rewrite Hr.
Qed.

(** A call that returns was either replayed or executed by one attempt. *)
Lemma movement_Return op w u a amt k md d r d' :
  quiet w →
  movement op w u a amt k md d = (Return r, d') →
  ¬ missing_parameters u a amt k ∧ (0 < amt)%Z
  ∧ ((_checkIdempotency (lookup_time w) k d = Some r ∧ d' = d)
     ∨ (_checkIdempotency (lookup_time w) k d = None
        ∧ ∃ n c', execute op (attempt_env w n) u a amt k md (connect d)
                  = (Return r, c')
                  ∧ d' = committed c')).
Proof.
  intros Hq. rewrite movement_unfold. unfold validated_and_retried.
  repeat case_decide; try done.
  intros Hr. split; [done|]. split; [lia|].
  destruct (_checkIdempotency _ k d) as [r0|].
  - injection Hr as -> <-. by left.
  - right. split; [done|].
    apply retry_loop_Return in Hr as [n Hr];
      [|intros *; by apply attempt_Throw].
    rewrite attempt_quiet in Hr by done.
    destruct (execute op _ u a amt k md (connect d)) as [o c'] eqn:Hx.
    simpl in Hr. injection Hr as -> <-. eauto.
Qed.

(** ** What a committed movement leaves in the database *)

Lemma filter_none {A} (P : A → Prop) `{∀ x, Decision (P x)} (l : list A) :
  Forall (λ x, ¬ P x) l → filter P l = [].
Proof.
  induction 1 as [|x l Hx _ IH]; [done|].
  by rewrite filter_cons_False.
Qed.


Section posted.
Variables (op : operation) (env : environment).
Variables (user code : string) (amt : money) (key : string) (md : metadata).
Variables (ps : parties) (d : database).

Let d' := posted op env user code amt key md ps d.
Let dbt := debit_entry op env amt ps d.
Let cdt := credit_entry op env amt ps d.

Lemma posted_transactions :
  transactions d' = transactions d ++ [header op env code amt key md ps].
Proof. done. Qed.

Lemma posted_ledger_entries :
  ledger_entries d' = ledger_entries d ++ [dbt; cdt].
Proof. subst d'; simpl. by rewrite <- app_assoc. Qed.

Lemma posted_idempotency_log :
  idempotency_log d' !! key
  = Some (idempotency_record op env user code amt md ps d).
Proof. subst d'; simpl. apply lookup_insert_eq. Qed.



(** The identifier drawn is new: nothing in the ledger refers to it. *)
Lemma posted_entries_of :
  ledger_references_transactions d →
  ¬ Exists (λ t, t_id t = uuidv4 env ∨ t_idempotency_key t = key)
           (transactions d) →
  entries_of (uuidv4 env) d' = [dbt; cdt].
Proof.
  intros Hfk Hnew. unfold entries_of. rewrite posted_ledger_entries.
  rewrite filter_app, filter_none.
  { by rewrite !filter_cons_True by done. }
  eapply Forall_impl; [exact Hfk|]. intros e He Heq. apply Hnew.
  eapply Exists_impl; [exact He|]. simpl. intros t Ht. left. congruence.
Qed.

Lemma posted_headers_with_key :
  ¬ Exists (λ t, t_id t = uuidv4 env ∨ t_idempotency_key t = key)
           (transactions d) →
  headers_with_key key d' = [header op env code amt key md ps].
Proof.
  intros Hnew. unfold headers_with_key. rewrite posted_transactions.
  rewrite filter_app, filter_none.
  { by rewrite filter_cons_True by done. }
  apply Forall_forall. intros t Ht Heq. apply Hnew.
  apply Exists_exists. eauto.
Qed.


End posted.

(** ** Double entry *)

(** C1. A movement that commits appends one transaction header, and exactly
    two ledger entries refer to it: a debit and a credit, both of the
    requested, strictly positive amount and of the asset of the header. *)
Theorem C1_two_ledger_entries op env u a amt k md d r c' :
  ledger_references_transactions d →
  execute op env u a amt k md (connect d) = (Return r, c') →
  ∃ h dbt cdt,
    transactions (committed c') = transactions d ++ [h]
    ∧ t_id h = transactionId r
    ∧ entries_of (t_id h) (committed c') = [dbt; cdt]
    ∧ le_entry_type dbt = debit ∧ le_entry_type cdt = credit
    ∧ le_amount dbt = amt ∧ le_amount cdt = amt ∧ (0 < amt)%Z
    ∧ t_amount h = amt
    ∧ le_asset_type_id dbt = t_asset_type_id h
    ∧ le_asset_type_id cdt = t_asset_type_id h.
Proof.
  intros Hfk Hrun.
  apply execute_Return in Hrun
    as (ps & _ & -> & -> & Hamt & _ & Hnew & _ & _).
  exists (header op env a amt k md ps), (debit_entry op env amt ps d),
    (credit_entry op env amt ps d).
  split; [apply posted_transactions|]. split; [done|].
  split; [by apply posted_entries_of|]. done.
Qed.

(** ** Atomicity *)

(** C3. When a movement fails at any step, the transaction is rolled back:
    the committed database is the one the movement started from, so no
    header, ledger entry, balance-cache update or idempotency record
    persists and every balance is unchanged. *)
Theorem C3_failure_rolls_back op env u a amt k md d e c' :
  execute op env u a amt k md (connect d) = (Throw e, c') →
  committed c' = d
  ∧ working c' = d
  ∧ last (statements c') = Some Rollback
  ∧ ∀ account asset,
      cached_balance account asset (committed c') = cached_balance account asset d.
Proof.
  intros Hrun. apply execute_Throw in Hrun as (Hc & Hw & Hl & _).
  by rewrite Hc.
Qed.

(** ** The balance cache *)


(** ** Status of the headers *)

(** C10. Whatever a movement does, the headers it has added to the
    committed database carry the status [completed] and a completion time;
    and the one statement that inserts a header, used by the three
    operations, writes no other status. *)
Theorem C10_headers_completed op env u a amt k md d o c' :
  execute op env u a amt k md (connect d) = (o, c') →
  (∃ added, transactions (committed c') = transactions d ++ added
            ∧ Forall (λ h, t_status h = completed
                           ∧ is_Some (t_completed_at h)) added)
  ∧ ∀ id key type asset amount text meta c0 c1,
      add_transaction env id key type asset amount text meta c0
      = (Return (), c1) →
      ∃ h, transactions (working c1) = transactions (working c0) ++ [h]
           ∧ t_status h = completed
           ∧ t_completed_at h = Some (date_completed env).
Proof.
  intros Hrun. split.
  - destruct o as [r|e].
    + apply execute_Return in Hrun as (ps & _ & _ & -> & _).
      exists [header op env a amt k md ps]. split; [apply posted_transactions|].
      repeat constructor. by eexists.
    + apply execute_Throw in Hrun as (-> & _). exists [].
      by rewrite app_nil_r.
  - intros * Hadd. unfold add_transaction in Hadd.
    rewrite run_issue, (surjective_pairing (write _ _)) in Hadd.
    unfold write, insert_transaction in Hadd. simpl in Hadd.
    repeat case_decide; try discriminate Hadd.
    injection Hadd as <-. simpl. by eexists.
Qed.


(** ** The balance precondition *)


(** ** The order of the steps *)

(** C8, as the code has it. A movement that commits has inserted the
    header, then the debit entry, then the credit entry, then upserted the
    balance cache of the source and of the destination, then written the
    idempotency record, then the audit record, then committed.  In a
    purchase, the header is inserted only after the balance of the user
    was checked and found sufficient. *)
Theorem C8_order_of_writes op env u a amt k md d o c' :
  execute op env u a amt k md (connect d) = (o, c') →
  (∀ r, o = Return r →
        ∃ ps, resolve op u a d = Some ps
              ∧ in_order (ledger_script op ps) (statements c'))
  ∧ (op = PURCHASE → InsertTransaction ∈ statements c' →
     ∃ ps, resolve op u a d = Some ps
           ∧ in_order [CheckBalance (p_user ps); InsertTransaction]
                      (statements c')
           ∧ (amt ≤ cached_balance (p_user ps) (p_asset ps) d)%Z).
Proof.
  intros Hrun. split.
  - intros r ->.
    apply execute_Return in Hrun as (ps & Hps & _ & _ & _ & _ & _ & _ & Hord).
    eauto.
  - intros ->. exact (purchase_checks_first _ _ _ _ _ _ _ _ _ Hrun).
Qed.

(** ** Idempotency *)

Lemma _checkIdempotency_live now key d row :
  idempotency_log d !! key = Some row →
  il_status row = "completed" →
  (now < il_expires_at row)%Z →
  _checkIdempotency now key d = Some (il_response_data row).
Proof.
  intros Hrow Hst Hlive. unfold _checkIdempotency. rewrite Hrow.
  by rewrite !decide_True.
Qed.

Lemma _checkIdempotency_expired now key d row :
  idempotency_log d !! key = Some row →
  (il_expires_at row ≤ now)%Z →
  _checkIdempotency now key d = None.
Proof.
  intros Hrow Hexp. unfold _checkIdempotency. rewrite Hrow.
  by rewrite decide_False by lia.
Qed.

(** Calls that find the stored result return it, one after the other. *)
Lemma run_calls_replayed u a amt k calls d r :
  ¬ missing_parameters u a amt k → (0 < amt)%Z →
  Forall (λ c, _checkIdempotency (lookup_time (c_world c)) k d = Some r) calls →
  run_calls u a amt k calls d = (replicate (length calls) (Return r), d).
Proof.
  intros Hm Hamt. induction 1 as [|c calls Hc _ IH]; simpl; [done|].
  rewrite (movement_replayed _ _ _ _ _ _ _ _ r) by done.
  by rewrite IH.
Qed.

(** C2, as the code has it. Take calls with the same user, asset, amount
    and key, made one after the other with no other worker active.  If
    the first of them executes and commits, and each later one looks the
    key up less than 24 hours after the transaction of the first began,
    then every call returns the response of the first, one header carries
    the key, and the debit and the credit of that header are the only
    ledger entries appended. *)
Theorem C2_replay_within_ttl u a amt k first rest d r d1 :
  quiet (c_world first) →
  ledger_references_transactions d →
  _checkIdempotency (lookup_time (c_world first)) k d = None →
  movement (c_operation first) (c_world first) u a amt k (c_metadata first) d
  = (Return r, d1) →
  Forall (λ c, ∀ n,
            (lookup_time (c_world c)
             < CURRENT_TIMESTAMP (attempt_env (c_world first) n)
               + idempotency_ttl)%Z) rest →
  ∃ h dbt cdt,
    run_calls u a amt k (first :: rest) d
    = (replicate (S (length rest)) (Return r), d1)
    ∧ headers_with_key k d1 = [h]
    ∧ t_id h = transactionId r
    ∧ ledger_entries d1 = ledger_entries d ++ [dbt; cdt]
    ∧ entries_of (t_id h) d1 = [dbt; cdt]
    ∧ le_entry_type dbt = debit ∧ le_entry_type cdt = credit.
Proof.
  intros Hq Hfk Hnone Hfirst Hlive.
  pose proof Hfirst as Hret.
  apply movement_Return in Hret as (Hm & Hamt & [[Hsome _]|(_ & n & c' & Hrun & ->)]);
    [congruence| |done].
  apply execute_Return in Hrun as (ps & _ & -> & Hd1 & _ & _ & Hnew & _ & _).
  rewrite Hd1.
  exists (header (c_operation first) (attempt_env (c_world first) n) a amt k
            (c_metadata first) ps),
    (debit_entry (c_operation first) (attempt_env (c_world first) n) amt ps d),
    (credit_entry (c_operation first) (attempt_env (c_world first) n) amt ps d).
  split.
  - simpl. rewrite Hfirst, Hd1.
    erewrite run_calls_replayed; [done..|].
    eapply Forall_impl; [exact Hlive|]. intros c Hc.
    apply (_checkIdempotency_live _ _ _ _ (posted_idempotency_log _ _ _ _ _ _ _ _ _));
      [done|apply Hc].
  - split; [by apply posted_headers_with_key|]. split; [done|].
    split; [apply posted_ledger_entries|].
    split; [by apply posted_entries_of|]. done.
Qed.

(** C6, as the code has it. When the first attempt of a call fails with a
    unique violation, the retry driver makes no other attempt and the call
    throws that error to its caller, with no second idempotency lookup;
    the attempt has written nothing.  And at whatever attempt the retry
    loop meets a unique violation, it ends with that error. *)
Theorem C6_unique_violation_surfaces op w u a amt k md d :
  ¬ missing_parameters u a amt k → (0 < amt)%Z →
  _checkIdempotency (lookup_time w) k d = None →
  (attempt w (λ env, execute op env u a amt k md) 1 d).1
  = Throw (DatabaseError unique_violation) →
  movement op w u a amt k md d
  = (Throw (DatabaseError unique_violation), concurrent w 1 d)
  ∧ ∀ remaining n last d0 d1,
      attempt w (λ env, execute op env u a amt k md) n d0
      = (Throw (DatabaseError unique_violation), d1) →
      retry_loop (attempt w (λ env, execute op env u a amt k md)) 3
        (S remaining) n last d0
      = (Throw (DatabaseError unique_violation), d1).
Proof.
  intros Hm Hamt Hnone Hfail. split.
  - rewrite movement_unfold. unfold validated_and_retried.
    rewrite decide_False by done. rewrite decide_False by lia. rewrite Hnone.
    apply executeWithRetry_not_retried; [lia| |done].
    unfold attempt in *.
    destruct (execute op _ u a amt k md (connect (concurrent w 1 d)))
      as [o c'] eqn:Hrun.
    simpl in Hfail. subst o. by apply execute_Throw in Hrun as (-> & _).
  - intros * Hn. simpl. by rewrite Hn.
Qed.

(** C9, as the code has it. A stored idempotency record that has expired
    is treated as absent by the lookup; the movement submitted under its
    key is then attempted, but it cannot commit while the record is
    stored: the call throws and leaves the database as it was.  When
    nothing else stands in the way of the movement (its rows resolve,
    nothing contends with its first attempt, the balances suffice), what
    it throws is the unique violation. *)
Theorem C9_expired_key_is_rejected op w u a amt k md d row :
  quiet w →
  idempotency_log d !! k = Some row →
  (il_expires_at row ≤ lookup_time w)%Z →
  _checkIdempotency (lookup_time w) k d = None
  ∧ (∃ e, movement op w u a amt k md d = (Throw e, d))
  ∧ (¬ missing_parameters u a amt k →
     ∀ ps, resolve op u a d = Some ps → uncontended (attempt_env w 1) →
           (0 < amt)%Z →
           (0 ≤ cached_balance (destination op ps) (p_asset ps) d)%Z →
           (amt ≤ cached_balance (source op ps) (p_asset ps) d)%Z →
           movement op w u a amt k md d
           = (Throw (DatabaseError unique_violation), d)).
Proof.
  intros Hq Hrow Hexp.
  assert (_checkIdempotency (lookup_time w) k d = None) as Hnone
    by by eapply _checkIdempotency_expired.
  split; [done|]. split.
  - destruct (movement op w u a amt k md d) as [[r|e] d'] eqn:Hcall.
    + apply movement_Return in Hcall
        as (_ & _ & [[Hsome _]|(_ & n & c' & Hrun & _)]); [congruence| |done].
      apply execute_Return in Hrun as (ps & _ & _ & _ & _ & _ & _ & Hfree & _).
      congruence.
    + exists e. by apply movement_Throw in Hcall as ->.
  - intros Hm ps Hps Hcalm Hamt Hdst Hsrc.
    rewrite movement_unfold. unfold validated_and_retried.
    rewrite decide_False by done. rewrite decide_False by lia. rewrite Hnone.
    apply executeWithRetry_not_retried; [lia| |done].
    rewrite attempt_quiet by done.
    destruct (execute op _ u a amt k md (connect d)) as [[r|e] c'] eqn:Hrun;
      simpl.
    + apply execute_Return in Hrun as (? & _ & _ & _ & _ & _ & _ & Hfree & _).
      congruence.
    + apply execute_Throw in Hrun as (-> & _ & _ & _ & _ & Hunique).
      by rewrite (Hunique ps).
Qed.

(** ** The properties on the seeded database *)

Ltac not_in_order H :=
  repeat first
    [ apply sublist_nil_r in H; discriminate H
    | apply sublist_cons_r in H as [H|(? & ? & H)]; simplify_eq ].

Section examples.
Import Sample.

Lemma seeded_references : ledger_references_transactions seeded.
Proof. apply (bool_decide_unpack _). vm_compute. exact I. Defined.

Lemma valid_call (amt : money) (key : string) :
  (0 < amt)%Z → key ≠ EmptyString →
  ¬ missing_parameters "user_001" "GOLD_COIN" amt key.
Proof. intros Hamt Hkey [H|[H|[H|H]]]; first [discriminate H | lia | done]. Defined.

Lemma alone_quiet id now : quiet (alone id now).
Proof. intros n d. reflexivity. Defined.

Lemma C1_two_ledger_entries_witness :
  ∃ h dbt cdt,
    transactions (committed topup_k1.2) = transactions seeded ++ [h]
    ∧ t_id h = transactionId topup_k1_response
    ∧ entries_of (t_id h) (committed topup_k1.2) = [dbt; cdt]
    ∧ le_entry_type dbt = debit ∧ le_entry_type cdt = credit
    ∧ le_amount dbt = 100%Z ∧ le_amount cdt = 100%Z ∧ (0 < 100)%Z
    ∧ t_amount h = 100%Z
    ∧ le_asset_type_id dbt = t_asset_type_id h
    ∧ le_asset_type_id cdt = t_asset_type_id h.
Proof.
  apply (C1_two_ledger_entries TOP_UP (calm 1000 10) "user_001" "GOLD_COIN"
           100 "k1" no_metadata seeded topup_k1_response topup_k1.2).
  - exact seeded_references.
  - vm_compute. reflexivity.
Defined.

Lemma C3_failure_rolls_back_witness :
  committed purchase_k3.2 = seeded
  ∧ working purchase_k3.2 = seeded
  ∧ last (statements purchase_k3.2) = Some Rollback
  ∧ ∀ account asset,
      cached_balance account asset (committed purchase_k3.2)
      = cached_balance account asset seeded.
Proof.
  apply (C3_failure_rolls_back PURCHASE (calm 1000 10) "user_001"
           "GOLD_COIN" 10000 "k3" no_metadata seeded
           (InsufficientBalance 500 10000) purchase_k3.2).
  vm_compute. reflexivity.
Defined.




Lemma C8_order_of_writes_witness :
  (∀ r, Return purchase_k2_response = Return r →
        ∃ ps, resolve PURCHASE "user_001" "GOLD_COIN" seeded = Some ps
              ∧ in_order (ledger_script PURCHASE ps)
                         (statements purchase_k2.2))
  ∧ (PURCHASE = PURCHASE → InsertTransaction ∈ statements purchase_k2.2 →
     ∃ ps, resolve PURCHASE "user_001" "GOLD_COIN" seeded = Some ps
           ∧ in_order [CheckBalance (p_user ps); InsertTransaction]
                      (statements purchase_k2.2)
           ∧ (25 ≤ cached_balance (p_user ps) (p_asset ps) seeded)%Z).
Proof.
  apply (C8_order_of_writes PURCHASE (calm 1000 10) "user_001" "GOLD_COIN"
           25 "k2" epic_shield seeded (Return purchase_k2_response)
           purchase_k2.2).
  vm_compute. reflexivity.
Defined.

Lemma C10_headers_completed_witness :
  (∃ added,
      transactions (committed topup_k1.2) = transactions seeded ++ added
      ∧ Forall (λ h, t_status h = completed ∧ is_Some (t_completed_at h))
               added)
  ∧ ∀ id key type asset amount text meta c0 c1,
      add_transaction (calm 1000 10) id key type asset amount text meta c0
      = (Return (), c1) →
      ∃ h, transactions (working c1) = transactions (working c0) ++ [h]
           ∧ t_status h = completed
           ∧ t_completed_at h = Some (date_completed (calm 1000 10)).
Proof.
  apply (C10_headers_completed TOP_UP (calm 1000 10) "user_001" "GOLD_COIN"
           100 "k1" no_metadata seeded (Return topup_k1_response)
           topup_k1.2).
  vm_compute. reflexivity.
Defined.

Lemma C2_replay_within_ttl_witness :
  ∃ h dbt cdt,
    run_calls "user_001" "GOLD_COIN" 100 "k1"
      [ call_at TOP_UP 1000 10; call_at TOP_UP 2000 20;
        call_at PURCHASE 3000 (9 + idempotency_ttl) ] seeded
    = (replicate 3 (Return topup_call_response), after_k1)
    ∧ headers_with_key "k1" after_k1 = [h]
    ∧ t_id h = transactionId topup_call_response
    ∧ ledger_entries after_k1 = ledger_entries seeded ++ [dbt; cdt]
    ∧ entries_of (t_id h) after_k1 = [dbt; cdt]
    ∧ le_entry_type dbt = debit ∧ le_entry_type cdt = credit.
Proof.
  apply (C2_replay_within_ttl "user_001" "GOLD_COIN" 100 "k1"
           (call_at TOP_UP 1000 10)
           [call_at TOP_UP 2000 20;
            call_at PURCHASE 3000 (9 + idempotency_ttl)]
           seeded topup_call_response after_k1).
  - apply alone_quiet.
  - exact seeded_references.
  - reflexivity.
  - vm_compute. reflexivity.
  - repeat apply Forall_cons_2.
    + intros n. simpl. unfold idempotency_ttl. lia.
    + intros n. simpl. unfold idempotency_ttl. lia.
    + constructor.
Defined.

Lemma C6_unique_violation_surfaces_witness :
  topUp racing "user_001" "GOLD_COIN" 100 "k1" no_metadata seeded
  = (Throw (DatabaseError unique_violation), concurrent racing 1 seeded)
  ∧ ∀ remaining n last d0 d1,
      attempt racing
        (λ env, execute TOP_UP env "user_001" "GOLD_COIN" 100 "k1" no_metadata)
        n d0
      = (Throw (DatabaseError unique_violation), d1) →
      retry_loop
        (attempt racing
           (λ env, execute TOP_UP env "user_001" "GOLD_COIN" 100 "k1"
                     no_metadata))
        3 (S remaining) n last d0
      = (Throw (DatabaseError unique_violation), d1).
Proof.
  apply (C6_unique_violation_surfaces TOP_UP racing "user_001" "GOLD_COIN"
           100 "k1" no_metadata seeded).
  - apply valid_call; [lia|discriminate].
  - lia.
  - reflexivity.
  - vm_compute. reflexivity.
Defined.

Lemma C9_expired_key_is_rejected_witness :
  _checkIdempotency (lookup_time (alone 2000 (10 + idempotency_ttl))) "k1"
    after_k1 = None
  ∧ (∃ e, topUp (alone 2000 (10 + idempotency_ttl)) "user_001" "GOLD_COIN"
            100 "k1" no_metadata after_k1
          = (Throw e, after_k1))
  ∧ (¬ missing_parameters "user_001" "GOLD_COIN" 100 "k1" →
     ∀ ps, resolve TOP_UP "user_001" "GOLD_COIN" after_k1 = Some ps →
           uncontended (attempt_env (alone 2000 (10 + idempotency_ttl)) 1) →
           (0 < 100)%Z →
           (0 ≤ cached_balance (destination TOP_UP ps) (p_asset ps) after_k1)%Z →
           (100 ≤ cached_balance (source TOP_UP ps) (p_asset ps) after_k1)%Z →
           topUp (alone 2000 (10 + idempotency_ttl)) "user_001" "GOLD_COIN"
             100 "k1" no_metadata after_k1
           = (Throw (DatabaseError unique_violation), after_k1)).
Proof.
  apply (C9_expired_key_is_rejected TOP_UP
           (alone 2000 (10 + idempotency_ttl)) "user_001" "GOLD_COIN" 100
           "k1" no_metadata after_k1 k1_record).
  - apply alone_quiet.
  - vm_compute. reflexivity.
  - vm_compute. discriminate.
Defined.

(** C2 as stated fails. Two top-ups under the key k1, the second one 24
    hours after the first: the first returns its response, the second
    throws a unique violation.  And two purchases of 10,000 under the key
    k3 both fail for want of funds: no header carries the key. *)
Lemma C2_counterexample :
  (run_calls "user_001" "GOLD_COIN" 100 "k1"
     [call_at TOP_UP 1000 10; call_at TOP_UP 2000 (10 + idempotency_ttl)]
     seeded).1
  = [Return topup_call_response; Throw (DatabaseError unique_violation)]
  ∧ (run_calls "user_001" "GOLD_COIN" 10000 "k3"
       [call_at PURCHASE 1000 10; call_at PURCHASE 2000 20] seeded).1
    = [Throw (InsufficientBalance 500 10000);
       Throw (InsufficientBalance 500 10000)]
  ∧ headers_with_key "k3"
      (run_calls "user_001" "GOLD_COIN" 10000 "k3"
         [call_at PURCHASE 1000 10; call_at PURCHASE 2000 20] seeded).2
    = [].
Proof. vm_compute. repeat split; reflexivity. Qed.

(** C6 as stated fails. The call looks the key up and finds nothing;
    another worker then commits the same key; the first attempt of the
    call fails on the insert with a unique violation.  The call throws
    that error, although the response of the winner is stored and live. *)
Lemma C6_counterexample :
  _checkIdempotency (lookup_time racing) "k1" seeded = None
  ∧ (attempt racing
       (λ env, execute TOP_UP env "user_001" "GOLD_COIN" 100 "k1" no_metadata)
       1 seeded).1
    = Throw (DatabaseError unique_violation)
  ∧ (topUp racing "user_001" "GOLD_COIN" 100 "k1" no_metadata seeded).1
    = Throw (DatabaseError unique_violation)
  ∧ _checkIdempotency (lookup_time racing) "k1"
      (topUp racing "user_001" "GOLD_COIN" 100 "k1" no_metadata seeded).2
    = Some topup_call_response.
Proof. vm_compute. repeat split; reflexivity. Qed.

(** C7 fails on the code. In a top-up the row of the user account is
    locked by the query that looks it up, before the treasury row, also
    when the treasury has the smaller id. *)
Lemma C7_topUp_locks_user_first :
  topup_k1.1 = Return topup_k1_response
  ∧ row_locks topup_k1.2 = [user_001_account; treasury_account]
  ∧ (treasury_account < user_001_account)%N.
Proof. vm_compute. repeat split; reflexivity. Qed.

(** C8 as stated fails. In a top-up the header is inserted before the
    balance of the treasury is read and checked; and in every movement
    the idempotency record is written before the audit record. *)
Lemma C8_counterexample :
  statements topup_k1.2
  = [ Begin; SelectAssetType; SelectUserAccount true;
      SelectSystemAccount "SYSTEM_TREASURY"; LockAccounts [treasury_account];
      SelectTransactionType "TOP_UP"; InsertTransaction;
      SelectBalance treasury_account; SelectBalance user_001_account;
      CheckBalance treasury_account;
      InsertLedgerEntry debit treasury_account;
      InsertLedgerEntry credit user_001_account;
      UpsertBalanceCache treasury_account;
      UpsertBalanceCache user_001_account;
      InsertIdempotencyLog; InsertAuditLog; Commit ]
  ∧ ¬ in_order [CheckBalance treasury_account; InsertTransaction]
               (statements topup_k1.2)
  ∧ ¬ in_order [InsertAuditLog; InsertIdempotencyLog]
               (statements purchase_k2.2).
Proof.
  split; [vm_compute; reflexivity|].
  split; (intros H; vm_compute in H; not_in_order H).
Qed.

(** C9 as stated fails. The record stored under k1 expires at time
    10 + 24 h; at that time the lookup treats it as absent, and the
    top-up submitted under k1 is attempted; it is not processed: the
    insert of the header violates the unique key, the call throws and no
    second header is written. *)
Lemma C9_counterexample :
  idempotency_log after_k1 !! "k1" = Some k1_record
  ∧ _checkIdempotency (10 + idempotency_ttl) "k1" after_k1 = None
  ∧ (topUp (alone 2000 (10 + idempotency_ttl)) "user_001" "GOLD_COIN" 100
       "k1" no_metadata after_k1).1
    = Throw (DatabaseError unique_violation)
  ∧ transactions
      (topUp (alone 2000 (10 + idempotency_ttl)) "user_001" "GOLD_COIN" 100
         "k1" no_metadata after_k1).2
    = transactions after_k1
  ∧ length (headers_with_key "k1" after_k1) = 1%nat.
Proof. vm_compute. repeat split; reflexivity. Qed.
End examples.

(** ** More on the state a movement commits *)

Lemma StronglySorted_lookup_2 {A} (R : relation A) l i j x y :
  StronglySorted R l → l !! i = Some x → l !! j = Some y → (i < j)%nat →
  R x y.
Proof.
  intros Hs. revert i j.
  induction Hs as [|z l Hs IH Hall]; intros i j Hi Hj Hij; [done|].
  destruct j as [|j]; [lia|]. destruct i as [|i]; simpl in *.
  - injection Hi as ->. rewrite Forall_forall in Hall. apply Hall.
    by eapply list_elem_of_lookup_2.
  - apply (IH i j); [done|done|lia].
Qed.

Lemma cached_balance_nonnegative d account asset :
  cache_nonnegative d → (0 ≤ cached_balance account asset d)%Z.
Proof.
  intros Hd. unfold cached_balance.
  destruct (balance_cache d !! _) as [row|] eqn:Hrow; [|done].
  by apply (Hd _ _ Hrow).
Qed.

(** What an execution leaves committed: the database it found, or the
    posted one. *)
Lemma execute_committed op env u a amt k md d o c' :
  execute op env u a amt k md (connect d) = (o, c') →
  (∃ e, o = Throw e ∧ committed c' = d)
  ∨ (∃ ps, o = Return (response_data op env u a amt md ps d)
           ∧ resolve op u a d = Some ps
           ∧ committed c' = posted op env u a amt k md ps d
           ∧ (0 < amt)%Z
           ∧ (amt ≤ cached_balance (source op ps) (p_asset ps) d)%Z
           ∧ ¬ Exists (λ t, t_id t = uuidv4 env ∨ t_idempotency_key t = k)
                      (transactions d)
           ∧ idempotency_log d !! k = None).
Proof.
  intros Hrun. destruct o as [r|e].
  - right. apply execute_Return in Hrun
      as (ps & ? & -> & ? & ? & ? & ? & ? & _). by exists ps.
  - left. apply execute_Throw in Hrun as (? & _). eauto.
Qed.

(** X1. The balance cache never goes negative: when every cached balance
    is at least 0 before an execution of a movement, every cached
    balance is at least 0 in the state the execution leaves committed,
    whatever its outcome. *)
Theorem X1_balances_stay_nonnegative op env u a amt k md d o c' :
  cache_nonnegative d →
  execute op env u a amt k md (connect d) = (o, c') →
  cache_nonnegative (committed c')
  ∧ ∀ account asset, (0 ≤ cached_balance account asset (committed c'))%Z.
Proof.
  intros Hd Hrun.
  assert (cache_nonnegative (committed c')) as Hc'.
  { apply execute_committed in Hrun
      as [(e & _ & ->)|(ps & _ & _ & -> & Hamt & Hle & _)]; [done|].
    unfold cache_nonnegative; simpl.
    pose proof (cached_balance_nonnegative d (destination op ps) (p_asset ps) Hd).
    repeat apply map_Forall_insert_2; [simpl; lia..|done]. }
  split; [done|]. intros. by apply cached_balance_nonnegative.
Qed.

(** X2. Transaction identifiers and idempotency keys stay unique: when
    no two headers share an id or an idempotency key before an
    execution, none do in the state it leaves committed. *)
Theorem X2_headers_stay_distinct op env u a amt k md d o c' :
  headers_distinct d →
  execute op env u a amt k md (connect d) = (o, c') →
  headers_distinct (committed c').
Proof.
  intros [Hid Hkey] Hrun.
  apply execute_committed in Hrun
    as [(e & _ & ->)|(ps & _ & _ & -> & _ & _ & Hnew & _)]; [done|].
  unfold headers_distinct. rewrite posted_transactions, !fmap_app; simpl.
  split; apply NoDup_app; (split; [done|]);
    (split; [|apply NoDup_singleton]);
    intros x Hx Hin; apply list_elem_of_singleton in Hin as ->;
    apply list_elem_of_fmap in Hx as (t & Heq & Ht);
    apply Hnew, Exists_exists; exists t; naive_solver.
Qed.

(** X3. The foreign key of the ledger is kept: when every ledger entry
    refers to a transaction header before an execution, every entry does
    in the state it leaves committed. *)
Theorem X3_ledger_keeps_referencing op env u a amt k md d o c' :
  ledger_references_transactions d →
  execute op env u a amt k md (connect d) = (o, c') →
  ledger_references_transactions (committed c').
Proof.
  intros Hfk Hrun.
  apply execute_committed in Hrun
    as [(e & _ & ->)|(ps & _ & _ & -> & _)]; [done|].
  unfold ledger_references_transactions.
  rewrite posted_ledger_entries, posted_transactions.
  apply Forall_app. split.
  - eapply Forall_impl; [exact Hfk|]. intros e. rewrite !Exists_exists.
    intros (t & Ht & Heq). exists t. split; [|done].
    apply elem_of_app. by left.
  - repeat constructor; apply Exists_app; right; by left.
Qed.



Lemma ledger_sum_absent account asset entries :
  (account, asset) ∉ (λ e, (le_account_id e, le_asset_type_id e)) <$> entries →
  ledger_sum account asset entries = 0%Z.
Proof.
  induction entries as [|e entries IH]; simpl; [done|].
  intros Hnot. apply not_elem_of_cons in Hnot as [Hne Hnot].
  rewrite decide_False by (intros [<- <-]; done). by apply IH.
Qed.

Lemma cache_consistent_everywhere d :
  cache_consistent d ↔ ∀ pair, cache_agrees d pair.
Proof.
  split.
  - intros Hc [account asset].
    destruct (decide ((account, asset) ∈ known_pairs d)) as [Hin|Hnot].
    { by apply (proj1 (Forall_forall _ _) Hc). }
    unfold known_pairs in Hnot. apply not_elem_of_app in Hnot as [Hcache Hledger].
    unfold cache_agrees, ledger_balance, cached_balance; simpl.
    rewrite (ledger_sum_absent _ _ _ Hledger).
    destruct (balance_cache d !! (account, asset)) as [row|] eqn:Hrow; [|done].
    destruct Hcache. apply list_elem_of_fmap. exists ((account, asset), row).
    split; [done|]. by apply elem_of_map_to_list.
  - intros Hall. apply Forall_forall. auto.
Qed.

Section effect.
Variables (op : operation) (env : environment).
Variables (user code : string) (amt : money) (key : string) (md : metadata).
Variables (ps : parties) (d : database).

Let d' := posted op env user code amt key md ps d.



End effect.





(** X6. An execution never rewrites history: it leaves asset types,
    account types, accounts and transaction types untouched, it only
    appends to the transactions, to the ledger and to the audit log, and
    it keeps every idempotency record it found. *)
Theorem X6_append_only op env u a amt k md d o c' :
  execute op env u a amt k md (connect d) = (o, c') →
  asset_types (committed c') = asset_types d
  ∧ account_types (committed c') = account_types d
  ∧ accounts (committed c') = accounts d
  ∧ transaction_types (committed c') = transaction_types d
  ∧ transactions d `prefix_of` transactions (committed c')
  ∧ ledger_entries d `prefix_of` ledger_entries (committed c')
  ∧ audit_log d `prefix_of` audit_log (committed c')
  ∧ idempotency_log d ⊆ idempotency_log (committed c').
Proof.
  intros Hrun.
  apply execute_committed in Hrun
    as [(e & _ & ->)|(ps & _ & _ & -> & _ & _ & _ & Hfree)]; [done|].
  do 4 (split; [done|]).
  split; [by eexists|]. split; [rewrite posted_ledger_entries; by eexists|].
  split; [by eexists|]. simpl. by apply insert_subseteq.
Qed.


(** X8. After a movement has committed, looking its idempotency key up
    answers with its response at any time before the start of its
    transaction plus 24 hours, and with nothing from then on. *)
Theorem X8_stored_response_window op env u a amt k md d r c' now :
  execute op env u a amt k md (connect d) = (Return r, c') →
  _checkIdempotency now k (committed c')
  = if decide (now < CURRENT_TIMESTAMP env + idempotency_ttl)%Z
    then Some r else None.
Proof.
  intros Hrun.
  apply execute_Return in Hrun as (ps & _ & -> & -> & _).
  unfold _checkIdempotency. rewrite posted_idempotency_log. simpl.
  by case_decide.
Qed.

(** X9. A committed movement appends exactly one audit record: it names
    the transaction, the user's account, the kind of movement and the
    request. *)
Theorem X9_one_audit_record op env u a amt k md d r c' :
  execute op env u a amt k md (connect d) = (Return r, c') →
  ∃ ps row,
    resolve op u a d = Some ps
    ∧ audit_log (committed c') = audit_log d ++ [row]
    ∧ al_transaction_id row = transactionId r
    ∧ al_account_id row = p_user ps
    ∧ al_action row = transaction_code op
    ∧ al_request_userId row = u
    ∧ al_request_assetCode row = a
    ∧ al_request_amount row = amt.
Proof.
  intros Hrun.
  apply execute_Return in Hrun as (ps & Hps & -> & -> & _).
  exists ps, (audit_record op env u a amt k md ps). by split.
Qed.

(** X10. A call with a missing parameter or with an amount that is not
    positive is refused before anything is read or written: the database
    is unchanged and the error is "Missing required parameters" when a
    parameter is missing, "Amount must be positive" otherwise.  The
    amount 0 counts as a missing parameter. *)
Theorem X10_invalid_input_is_refused op w u a amt k md d :
  missing_parameters u a amt k ∨ (amt ≤ 0)%Z →
  movement op w u a amt k md d
  = (Throw (if decide (missing_parameters u a amt k)
            then MissingRequiredParameters else AmountMustBePositive), d)
  ∧ (amt = 0%Z → missing_parameters u a amt k).
Proof.
  intros Hbad. split; [|intros ->; right; right; by left].
  rewrite movement_unfold. unfold validated_and_retried.
  case_decide as Hm; [done|]. destruct Hbad as [?|Hamt]; [done|].
  by rewrite decide_True by lia.
Qed.

(** X11. The stored request hash is never compared: within 24 hours of a
    committed movement, any valid call under its idempotency key, be it
    of another kind, for another user, asset or amount, returns the
    response of the first movement and changes nothing. *)
Theorem X11_key_reuse_returns_stored_response
    op env u a amt k md d r c' op' w' u' a' amt' md' :
  execute op env u a amt k md (connect d) = (Return r, c') →
  ¬ missing_parameters u' a' amt' k → (0 < amt')%Z →
  (lookup_time w' < CURRENT_TIMESTAMP env + idempotency_ttl)%Z →
  movement op' w' u' a' amt' k md' (committed c') = (Return r, committed c').
Proof.
  intros Hrun Hm Hamt Hlive. apply movement_replayed; [done..|].
  apply execute_Return in Hrun as (ps & _ & -> & -> & _).
  unfold _checkIdempotency. rewrite posted_idempotency_log. simpl.
  by rewrite decide_True.
Qed.


(** ** The retry driver, attempt by attempt *)

Section retry_attempts.
Context {A : Type}.
Variable queryFunction : nat → database → outcome A * database.
Variable maxRetries : nat.
Hypothesis failed_attempt :
  ∀ n d e d', queryFunction n d = (Throw e, d') → d' = d.

Lemma retry_loop_attempts remaining n last d o d' :
  (remaining + n = S maxRetries)%nat → (0 < remaining)%nat →
  retry_loop queryFunction maxRetries remaining n last d = (o, d') →
  ∃ m, (n ≤ m ≤ maxRetries)%nat
       ∧ queryFunction m d = (o, d')
       ∧ (∀ j, (n ≤ j < m)%nat →
               ∃ e, (queryFunction j d).1 = Throw e ∧ isRetriable e = true)
       ∧ (∀ e, o = Throw e → isRetriable e = false ∨ m = maxRetries).
Proof using failed_attempt.
  revert n last. induction remaining as [|remaining IH]; intros n last Hn Hpos;
    [lia|]. simpl.
  destruct (queryFunction n d) as [[a|e] d1] eqn:Hq.
  - intros [= <- <-]. exists n. split; [lia|]. split; [done|].
    split; [intros; lia|done].
  - pose proof (failed_attempt _ _ _ _ Hq) as ->.
    destruct (isRetriable e) eqn:Hre; simpl.
    + destruct (n =? maxRetries)%nat eqn:Hlast.
      * apply Nat.eqb_eq in Hlast. intros [= <- <-]. exists n.
        split; [lia|]. split; [done|]. split; [intros; lia|auto].
      * apply Nat.eqb_neq in Hlast. intros Hloop.
        apply IH in Hloop as (m & Hm & Hqm & Hbefore & Hend); [|lia..].
        exists m. split; [lia|]. split; [done|]. split; [|done].
        intros j Hj. destruct (decide (j = n)) as [->|Hne].
        -- exists e. by rewrite Hq.
        -- apply Hbefore. lia.
    + intros [= <- <-]. exists n. split; [lia|]. split; [done|].
      split; [intros; lia|]. intros e' [= <-]. by left.
Qed.

Lemma retry_loop_reaches remaining n last d m o d' :
  (remaining + n = S maxRetries)%nat → (n ≤ m ≤ maxRetries)%nat →
  (∀ j, (n ≤ j < m)%nat →
        ∃ e, (queryFunction j d).1 = Throw e ∧ isRetriable e = true) →
  queryFunction m d = (o, d') →
  (∀ e, o = Throw e → isRetriable e = false ∨ m = maxRetries) →
  retry_loop queryFunction maxRetries remaining n last d = (o, d').
Proof using failed_attempt.
  revert n last. induction remaining as [|remaining IH];
    intros n last Hn Hm Hbefore Hqm Hend; [lia|]. simpl.
  destruct (decide (n = m)) as [->|Hne].
  - rewrite Hqm. destruct o as [a|e]; [done|].
    destruct (Hend e eq_refl) as [->| ->]; [done|].
    by rewrite Nat.eqb_refl, orb_true_r.
  - destruct (Hbefore n) as (e & He & Hre); [lia|].
    destruct (queryFunction n d) as [o1 d1] eqn:Hq. simpl in He. subst o1.
    pose proof (failed_attempt _ _ _ _ Hq) as ->.
    rewrite Hre. simpl.
    destruct (n =? maxRetries)%nat eqn:Hlast;
      [apply Nat.eqb_eq in Hlast; lia|].
    apply IH; [lia|lia| |done|done]. intros j Hj. apply Hbefore. lia.
Qed.
End retry_attempts.

(** X12. The retry driver, for any function whose failed attempts leave
    the state as it was: its result is the result of an attempt numbered
    between 1 and maxRetries, every earlier attempt failed with a
    retriable error (40P01, 40001 or 55P03), and when the result is a
    failure it is not retriable or the attempt was the last one. *)
Theorem X12_retry_driver_attempts {A}
    (queryFunction : nat → database → outcome A * database) maxRetries d o d' :
  (∀ n x e x', queryFunction n x = (Throw e, x') → x' = x) →
  (0 < maxRetries)%nat →
  executeWithRetry queryFunction maxRetries d = (o, d') →
  ∃ m, (1 ≤ m ≤ maxRetries)%nat
       ∧ queryFunction m d = (o, d')
       ∧ (∀ j, (1 ≤ j < m)%nat →
               ∃ e, (queryFunction j d).1 = Throw e ∧ isRetriable e = true)
       ∧ (∀ e, o = Throw e → isRetriable e = false ∨ m = maxRetries).
Proof.
  intros Hfail Hpos. apply retry_loop_attempts; [done|lia|lia].
Qed.

(** X13. Transient failures are absorbed: when the attempts before
    attempt m (m at most 3) fail with retriable errors and attempt m
    commits, the call returns the response of attempt m and leaves its
    committed state. *)
Theorem X13_transient_failures_are_absorbed op w u a amt k md d m r c' :
  quiet w →
  ¬ missing_parameters u a amt k → (0 < amt)%Z →
  _checkIdempotency (lookup_time w) k d = None →
  (1 ≤ m ≤ 3)%nat →
  (∀ j, (1 ≤ j < m)%nat →
        ∃ e, (execute op (attempt_env w j) u a amt k md (connect d)).1 = Throw e
             ∧ isRetriable e = true) →
  execute op (attempt_env w m) u a amt k md (connect d) = (Return r, c') →
  movement op w u a amt k md d = (Return r, committed c').
Proof.
  intros Hq Hm Hamt Hnone Hrange Hbefore Hrun.
  rewrite movement_unfold. unfold validated_and_retried.
  rewrite decide_False by done. rewrite decide_False by lia. rewrite Hnone.
  eapply (retry_loop_reaches _ _ (λ n x e x', attempt_Throw op w u a amt k md n x e x' Hq));
    [lia|exact Hrange| | |done].
  - intros j Hj. rewrite attempt_quiet by done. simpl. by apply Hbefore.
  - rewrite attempt_quiet by done. by rewrite Hrun.
Qed.


(** ** Contention on the account rows *)

Lemma select_account_by_id_elem (P : account → Prop) `{∀ x, Decision (P x)}
    id d :
  id ∈ acc_id <$> filter P (accounts d) → id ∈ select_account_by_id id d.
Proof.
  intros Hin. apply list_elem_of_fmap in Hin as (row & -> & Hrow).
  apply list_elem_of_filter in Hrow as [_ Hrow].
  unfold select_account_by_id. apply list_elem_of_fmap. exists row.
  split; [done|]. by apply list_elem_of_filter.
Qed.

Lemma select_accounts_ordered_elem (P : account → Prop)
    `{∀ x, Decision (P x)} id ids d :
  id ∈ acc_id <$> filter P (accounts d) → id ∈ ids →
  id ∈ select_accounts_ordered ids d.
Proof.
  intros Hin Hids. apply list_elem_of_fmap in Hin as (row & -> & Hrow).
  apply list_elem_of_filter in Hrow as [_ Hrow].
  unfold select_accounts_ordered. rewrite merge_sort_Permutation.
  apply list_elem_of_fmap. exists row. split; [done|].
  by apply list_elem_of_filter.
Qed.

Lemma sort_pair_elems x y : x ∈ sort_pair x y ∧ y ∈ sort_pair x y.
Proof. unfold sort_pair. case_decide; set_solver. Qed.

(** What the two guarded lock statements of the top-up lock. *)
Lemma topUp_locks_the_treasury (held : gset uuid) x y d :
  y ∈ select_account_by_id y d →
  x ∉ held →
  (sort_pair x y !!! 0%nat ≠ x →
   Forall (λ i, i ∉ held) (select_account_by_id (sort_pair x y !!! 0%nat) d)) →
  (sort_pair x y !!! 1%nat ≠ x →
   Forall (λ i, i ∉ held) (select_account_by_id (sort_pair x y !!! 1%nat) d)) →
  y ∉ held.
Proof.
  intros Hy Hx H0 H1. destruct (decide (y = x)) as [->|Hne]; [done|].
  unfold sort_pair in *. case_decide; simpl in *.
  - specialize (H0 Hne). by apply (proj1 (Forall_forall _ _) H0).
  - specialize (H1 Hne). by apply (proj1 (Forall_forall _ _) H1).
Qed.

Lemma resolve_Some op u a d ps :
  resolve op u a d = Some ps →
  ∃ l1 l2 l3 l4,
    select_asset_type a d = p_asset ps :: l1
    ∧ select_user_account u d = p_user ps :: l2
    ∧ select_system_account (counterparty op) d = p_system ps :: l3
    ∧ select_transaction_type (transaction_code op) d = p_type ps :: l4.
Proof.
  unfold resolve.
  destruct (select_asset_type a d) as [|x1 l1]; [done|].
  destruct (select_user_account u d) as [|x2 l2]; [done|].
  destruct (select_system_account _ d) as [|x3 l3]; [done|].
  destruct (select_transaction_type _ d) as [|x4 l4]; [done|].
  simpl. intros [= <-]. simpl. by eexists _, _, _, _.
Qed.

Lemma execute_contended op env u a amt k md d ps o c' :
  resolve op u a d = Some ps →
  p_user ps ∈ locked_elsewhere env ∨ p_system ps ∈ locked_elsewhere env →
  execute op env u a amt k md (connect d) = (o, c') →
  o = Throw (DatabaseError lock_not_available)
  ∧ InsertTransaction ∉ statements c'.
Proof.
  intros Hps Hheld H.
  apply resolve_Some in Hps as (l1 & l2 & l3 & l4 & E1 & E2 & E3 & E4).
  assert (p_user ps ∈ select_account_by_id (p_user ps) d) as Hu.
  { eapply select_account_by_id_elem. unfold select_user_account in E2.
    rewrite E2. by left. }
  assert (p_system ps ∈ select_account_by_id (p_system ps) d) as Hs.
  { eapply select_account_by_id_elem. unfold select_system_account in E3.
    rewrite E3. by left. }
  assert (∀ ids, p_user ps ∈ ids → p_user ps ∈ select_accounts_ordered ids d)
    as Huo.
  { intros ids. eapply select_accounts_ordered_elem.
    unfold select_user_account in E2. rewrite E2. by left. }
  assert (∀ ids, p_system ps ∈ ids → p_system ps ∈ select_accounts_ordered ids d)
    as Hso.
  { intros ids. eapply select_accounts_ordered_elem.
    unfold select_system_account in E3. rewrite E3. by left. }
  destruct op; simpl in E3, E4.
  all: tx_run H.
  all: injection H as <- <-.
  all: try (split; [reflexivity|intros Hin; not_issued Hin]).
  all: exfalso.
  all: try discriminate E1; try discriminate E2; try discriminate E3;
    try discriminate E4.
  all: injection E2 as -> ->; injection E3 as -> ->.
  all: try match goal with
         | F : Forall _ (select_accounts_ordered (sort_pair ?x ?y) _) |- _ =>
             pose proof (sort_pair_elems x y) as [? ?];
             rewrite Forall_forall in F;
             destruct Hheld as [Hh|Hh]; (eapply F; [|exact Hh]); auto
         end.
  all: try match goal with
         | F : Forall _ (p_user _ :: _) |- _ =>
             apply Forall_cons in F as [Fu _];
             destruct Hheld as [Hh|Hh]; [done|];
             revert Hh; eapply topUp_locks_the_treasury; [exact Hs|exact Fu|..];
             intros ?; first [assumption | contradiction]
         end.
Qed.


(** X14. When another session holds the row of the user's account or of
    the system account, the execution fails with lock_not_available
    (55P03, which the driver retries) before the transaction header is
    inserted, and leaves the database as it was. *)
Theorem X14_contended_row_fails_fast op env u a amt k md d ps o c' :
  resolve op u a d = Some ps →
  p_user ps ∈ locked_elsewhere env ∨ p_system ps ∈ locked_elsewhere env →
  execute op env u a amt k md (connect d) = (o, c') →
  o = Throw (DatabaseError lock_not_available)
  ∧ isRetriable (DatabaseError lock_not_available) = true
  ∧ (InsertTransaction ∉ statements c')
  ∧ committed c' = d.
Proof.
  intros Hps Hheld Hrun.
  destruct (execute_contended _ _ _ _ _ _ _ _ _ _ _ Hps Hheld Hrun) as [-> Hno].
  split; [done|]. split; [done|]. split; [done|].
  by apply execute_Throw in Hrun as [? _].
Qed.

(** X15. When one of the two account rows stays locked by another session
    during all three attempts, the call fails with lock_not_available
    and leaves the database as it was. *)
Theorem X15_lock_held_through_all_attempts op w u a amt k md d ps :
  quiet w →
  ¬ missing_parameters u a amt k → (0 < amt)%Z →
  _checkIdempotency (lookup_time w) k d = None →
  resolve op u a d = Some ps →
  (∀ n, (1 ≤ n ≤ 3)%nat →
        p_user ps ∈ locked_elsewhere (attempt_env w n)
        ∨ p_system ps ∈ locked_elsewhere (attempt_env w n)) →
  movement op w u a amt k md d = (Throw (DatabaseError lock_not_available), d).
Proof.
  intros Hq Hm Hamt Hnone Hps Hheld.
  rewrite movement_unfold. unfold validated_and_retried.
  rewrite decide_False by done. rewrite decide_False by lia. rewrite Hnone.
  assert (∀ n, (1 ≤ n ≤ 3)%nat →
    attempt w (λ env, execute op env u a amt k md) n d
    = (Throw (DatabaseError lock_not_available), d)) as Hattempt.
  { intros n Hn. rewrite attempt_quiet by done.
    destruct (execute op (attempt_env w n) u a amt k md (connect d))
      as [o c'] eqn:Hrun. simpl.
    destruct (execute_contended _ _ _ _ _ _ _ _ _ _ _ Hps (Hheld n Hn) Hrun)
      as [-> _].
    by apply execute_Throw in Hrun as [-> _]. }
  apply (retry_loop_reaches _ _
           (λ n x e x', attempt_Throw op w u a amt k md n x e x' Hq)
           3 1 None d 3); [lia|lia| | |by right].
  - intros j Hj. exists (DatabaseError lock_not_available).
    by rewrite Hattempt by lia.
  - apply Hattempt. lia.
Qed.

(** ** The rows a committed movement held *)

(** X16. A movement that commits held the row locks of both the user's
    account and the system account, and none of the rows it locked was
    held by another session. *)
Theorem X16_commit_held_both_rows op env u a amt k md d r c' :
  execute op env u a amt k md (connect d) = (Return r, c') →
  ∃ ps, resolve op u a d = Some ps
        ∧ p_user ps ∈ row_locks c' ∧ p_system ps ∈ row_locks c'
        ∧ Forall (λ i, i ∉ locked_elsewhere env) (row_locks c').
Proof.
  intros H. destruct op.
  all: tx_run_Return H.
  all: injection H as <- <-.
  all: tx_resolved.
  all: eexists; split; [reflexivity|].
  all: cbn [p_user p_system row_locks locked issued written published].
  all: match goal with
       | E : select_user_account _ _ = ?x :: _,
         E' : select_system_account _ _ = ?y :: _ |- _ =>
           assert (x ∈ select_account_by_id x d) as Hu
             by (eapply select_account_by_id_elem;
                 unfold select_user_account in E; rewrite E; by left);
           assert (y ∈ select_account_by_id y d) as Hs
             by (eapply select_account_by_id_elem;
                 unfold select_system_account in E'; rewrite E'; by left);
           assert (∀ ids, x ∈ ids → x ∈ select_accounts_ordered ids d) as Huo
             by (intros ids; eapply select_accounts_ordered_elem;
                 unfold select_user_account in E; rewrite E; by left);
           assert (∀ ids, y ∈ ids → y ∈ select_accounts_ordered ids d) as Hso
             by (intros ids; eapply select_accounts_ordered_elem;
                 unfold select_system_account in E'; rewrite E'; by left);
           pose proof (sort_pair_elems x y) as [? ?]
       end.
  all: cbn [row_locks connect app].
  all: split; [|split].
  all: try (rewrite ?Forall_app; repeat split; assumption).
  all: try (first [apply Huo | apply Hso]; assumption).
  all: rewrite ?elem_of_app, ?elem_of_cons.
  all: try (auto; fail).
  all: try match goal with
       | f : Forall _ (_ :: _) |- Forall _ _ =>
           apply Forall_cons in f as [? ?];
           rewrite ?Forall_cons, ?Forall_app; repeat split; assumption
       end.
  all: match goal with
       | Hs : ?y ∈ select_account_by_id ?y _ |- ?y = ?x ∨ _ =>
           destruct (decide (y = x)) as [|Hne]; [by left|]; right;
           rewrite ?elem_of_app; unfold sort_pair in *;
           destruct (decide (y < x)%N); simpl in *; first [done | auto]
       end.
Qed.

(** X17. issueBonus and purchase take their row locks in ascending order
    of account id, on every execution, whatever its outcome. *)
Theorem X17_bonus_and_purchase_lock_ascending op env u a amt k md d o c' :
  op ≠ TOP_UP →
  execute op env u a amt k md (connect d) = (o, c') →
  StronglySorted N.le (row_locks c')
  ∧ ∀ i j x y, row_locks c' !! i = Some x → row_locks c' !! j = Some y →
               (i < j)%nat → (x ≤ y)%N.
Proof.
  intros Hop Hrun.
  pose proof (execute_locks_ascending _ _ _ _ _ _ _ _ _ _ Hop Hrun) as Hs.
  split; [done|]. intros i j x y Hi Hj Hij.
  apply (StronglySorted_lookup_2 N.le (row_locks c') i j x y); done.
Qed.


(** ** Reading a balance *)

Section read_balance.
Variable names : labels.

Lemma select_balance_elem u code d row :
  row ∈ select_balance names u code d ↔
  ∃ key bc a t,
    balance_cache d !! key = Some bc
    ∧ a ∈ accounts d ∧ acc_id a = key.1 ∧ acc_user_id a = Some u
    ∧ t ∈ asset_types d ∧ at_id t = key.2 ∧ at_code t = code
    ∧ row = (bc_balance bc, asset_type_name names (at_id t), at_code t).
Proof.
  unfold select_balance. rewrite list_elem_of_bind. split.
  - intros ([key bc] & Hrow & Hbc). apply elem_of_map_to_list in Hbc.
    apply list_elem_of_bind in Hrow as (a & Hrow & Ha).
    apply list_elem_of_filter in Ha as [[? ?] ?].
    apply list_elem_of_bind in Hrow as (t & Hrow & Ht).
    apply list_elem_of_filter in Ht as [[? ?] ?].
    apply list_elem_of_singleton in Hrow. by exists key, bc, a, t.
  - intros (key & bc & a & t & Hbc & Ha & ? & ? & Ht & ? & ? & ->).
    exists (key, bc). split; [|by apply elem_of_map_to_list].
    apply list_elem_of_bind. exists a. split; [|by apply list_elem_of_filter].
    apply list_elem_of_bind. exists t. split; [|by apply list_elem_of_filter].
    by apply list_elem_of_singleton.
Qed.

Lemma getBalance_sole u code acct asset d :
  sole_account u acct d → sole_asset_type code asset d →
  getBalance names u code d =
  match balance_cache d !! (acct, asset) with
  | Some bc => {| br_userId := u; br_assetCode := code;
                  br_assetName := Some (asset_type_name names asset);
                  br_balance := bc_balance bc |}
  | None => no_balance u code
  end.
Proof.
  intros [Hacct Haccts] [Hasset Hassets].
  rewrite Forall_forall in Haccts. rewrite Forall_forall in Hassets.
  apply Exists_exists in Hacct as (a0 & Ha0 & Hu0).
  apply Exists_exists in Hasset as (t0 & Ht0 & Hc0).
  unfold getBalance.
  destruct (select_balance names u code d) as [|row rest] eqn:Hrows.
  - destruct (balance_cache d !! (acct, asset)) as [bc|] eqn:Hbc; [|done].
    assert ((bc_balance bc, asset_type_name names (at_id t0), at_code t0)
            ∈ select_balance names u code d) as Hin.
    { apply select_balance_elem. exists (acct, asset), bc, a0, t0.
      repeat split; auto. }
    rewrite Hrows in Hin. by apply elem_of_nil in Hin.
  - assert (row ∈ select_balance names u code d) as Hin
      by (rewrite Hrows; by left).
    apply select_balance_elem in Hin
      as ([acct' asset'] & bc & a & t & Hbc & Ha & Hid & Hu & Ht & Hat & Hc & ->).
    simpl in *. rewrite (Haccts a Ha Hu) in Hid. subst acct'.
    rewrite (Hassets t Ht Hc) in Hat. subst asset'.
    rewrite Hbc. by rewrite Hc, (Hassets t Ht Hc).
Qed.

(** X18. getBalance does not fail on what it does not know: for a user
    without an account, or a code that names no asset type, it answers
    with balance 0 and assetName null, echoing the user and the code. *)
Theorem X18_getBalance_of_the_unknown u code d :
  Forall (λ a, acc_user_id a ≠ Some u) (accounts d)
  ∨ Forall (λ t, at_code t ≠ code) (asset_types d) →
  getBalance names u code d = no_balance u code.
Proof.
  intros Hnone. unfold getBalance.
  destruct (select_balance names u code d) as [|row rest] eqn:Hrows; [done|].
  assert (row ∈ select_balance names u code d) as Hin
    by (rewrite Hrows; by left).
  apply select_balance_elem in Hin
    as (key & bc & a & t & Hbc & Ha & Hid & Hu & Ht & Hat & Hc & ->).
  destruct Hnone as [Hnone|Hnone].
  - rewrite Forall_forall in Hnone. by destruct (Hnone a Ha).
  - rewrite Forall_forall in Hnone. by destruct (Hnone t Ht).
Qed.

(** X19. For a user with one account and a code naming one asset type,
    getBalance reports the cached balance the movements read and check
    (0 when there is no cache row), and when cache and ledger are
    consistent that balance is credits minus debits of the ledger. *)
Theorem X19_getBalance_reads_what_movements_check u code acct asset d :
  sole_account u acct d → sole_asset_type code asset d →
  br_userId (getBalance names u code d) = u
  ∧ br_assetCode (getBalance names u code d) = code
  ∧ br_balance (getBalance names u code d) = cached_balance acct asset d
  ∧ (cache_consistent d →
     br_balance (getBalance names u code d) = ledger_balance acct asset d).
Proof.
  intros Hacct Hasset. rewrite (getBalance_sole _ _ _ _ _ Hacct Hasset).
  assert (br_balance
            match balance_cache d !! (acct, asset) with
            | Some bc => {| br_userId := u; br_assetCode := code;
                            br_assetName := Some (asset_type_name names asset);
                            br_balance := bc_balance bc |}
            | None => no_balance u code
            end = cached_balance acct asset d) as Hbalance.
  { unfold cached_balance. by destruct (balance_cache d !! (acct, asset)). }
  split; [by destruct (balance_cache d !! (acct, asset))|].
  split; [by destruct (balance_cache d !! (acct, asset))|].
  split; [done|]. intros Hc. rewrite Hbalance.
  apply (proj1 (cache_consistent_everywhere d) Hc (acct, asset)).
Qed.


End read_balance.


(** ** Reading all balances *)

Lemma left_join_elem {A B} (rows : list A) (matching : A → list B) r m :
  (r, Some m) ∈ left_join rows matching ↔ r ∈ rows ∧ m ∈ matching r.
Proof.
  unfold left_join. rewrite list_elem_of_bind. split.
  - intros (r' & Hin & Hr'). destruct (matching r') as [|b bs] eqn:Hm.
    + apply list_elem_of_singleton in Hin. discriminate Hin.
    + apply list_elem_of_fmap in Hin as (m' & [= -> ->] & Hm').
      by rewrite Hm.
  - intros [Hr Hm]. exists r. split; [|done].
    destruct (matching r) as [|b bs] eqn:Hmr; [by apply elem_of_nil in Hm|].
    apply list_elem_of_fmap. by exists m.
Qed.


Section read_balances.
Variable names : labels.
Context (collate : string → string → Prop) `{∀ x y, Decision (collate x y)}.

Lemma select_balances_elem u d row :
  row ∈ select_balances names collate u d ↔
  ∃ a key bc t,
    a ∈ accounts d ∧ acc_user_id a = Some u
    ∧ balance_cache d !! key = Some bc ∧ key.1 = acc_id a
    ∧ t ∈ asset_types d ∧ at_id t = key.2 ∧ at_is_active t = true
    ∧ row = (at_code t, asset_type_name names (at_id t), bc_balance bc).
Proof.
  unfold select_balances. rewrite merge_sort_Permutation.
  rewrite list_elem_of_bind. split.
  - intros ([[a [[key bc]|]] [t|]] & Hrow & Hjoin);
      try by apply elem_of_nil in Hrow.
    case_decide as Hwhere; [|by apply elem_of_nil in Hrow].
    destruct Hwhere as [Hu Hactive].
    apply list_elem_of_singleton in Hrow.
    apply left_join_elem in Hjoin as [Hjoin Ht]. simpl in Ht.
    apply left_join_elem in Hjoin as [Ha Hbc].
    apply list_elem_of_filter in Ht as [Hid Ht].
    apply list_elem_of_filter in Hbc as [Hacc Hbc].
    apply elem_of_map_to_list in Hbc. simpl in *.
    by exists a, key, bc, t.
  - intros (a & key & bc & t & Ha & Hu & Hbc & Hacc & Ht & Hid & Hactive & ->).
    exists (a, Some (key, bc), Some t). split.
    + rewrite decide_True by done. by apply list_elem_of_singleton.
    + apply left_join_elem. split.
      * apply left_join_elem. split; [done|].
        apply list_elem_of_filter. split; [done|].
        by apply elem_of_map_to_list.
      * simpl. by apply list_elem_of_filter.
Qed.

Lemma select_active_asset_types_Permutation d :
  select_active_asset_types names collate d
  ≡ₚ (λ t, (at_code t, asset_type_name names (at_id t)))
     <$> filter (λ t, at_is_active t = true) (asset_types d).
Proof. apply merge_sort_Permutation. Qed.

(** X21. getAllBalances lists active asset types only, under their code
    and name, and every balance it lists is 0 or the cached balance of
    an account of that user. *)
Theorem X21_getAllBalances_lists_the_users_active_assets u d b :
  b ∈ bs_balances (getAllBalances names collate u d) →
  ∃ t, t ∈ asset_types d ∧ at_is_active t = true
       ∧ bi_assetCode b = at_code t
       ∧ bi_assetName b = asset_type_name names (at_id t)
       ∧ (bi_balance b = 0%Z
          ∨ ∃ a, a ∈ accounts d ∧ acc_user_id a = Some u
                 ∧ balance_cache d !! (acc_id a, at_id t) ≠ None
                 ∧ bi_balance b = cached_balance (acc_id a) (at_id t) d).
Proof.
  unfold getAllBalances. case_decide as Hempty; simpl.
  - intros (row & -> & Hrow)%list_elem_of_fmap.
    rewrite select_active_asset_types_Permutation in Hrow.
    apply list_elem_of_fmap in Hrow as (t & -> & Ht).
    apply list_elem_of_filter in Ht as [Hactive Ht].
    exists t. simpl. split_and!; auto.
  - intros [_ (row & -> & Hrow)%list_elem_of_fmap]%list_elem_of_filter.
    apply select_balances_elem in Hrow
      as (a & [acct asset] & bc & t & Ha & Hu & Hbc & Hacc & Ht & Hid & Hactive & ->).
    simpl in *. subst acct asset.
    exists t. repeat split; [done..|]. right. exists a.
    unfold cached_balance. rewrite Hbc. done.
Qed.

(** X22. For a user none of whose accounts has a cache row (an unknown
    user among them), getAllBalances lists every active asset type
    once, with balance 0. *)
Theorem X22_getAllBalances_without_balances u d :
  Forall (λ a, acc_user_id a = Some u →
               ∀ asset, balance_cache d !! (acc_id a, asset) = None)
         (accounts d) →
  bs_userId (getAllBalances names collate u d) = u
  ∧ bs_balances (getAllBalances names collate u d)
    ≡ₚ (λ t, {| bi_assetCode := at_code t;
                bi_assetName := asset_type_name names (at_id t);
                bi_balance := 0 |})
       <$> filter (λ t, at_is_active t = true) (asset_types d).
Proof.
  intros Hnone. rewrite Forall_forall in Hnone.
  assert (select_balances names collate u d = []) as Hrows.
  { apply elem_of_nil_inv. intros row Hrow.
    apply select_balances_elem in Hrow
      as (a & [acct asset] & bc & t & Ha & Hu & Hbc & Hacc & _).
    simpl in *. subst acct. by rewrite (Hnone a Ha Hu) in Hbc. }
  unfold getAllBalances. rewrite Hrows.
  rewrite decide_True by (by left). simpl. split; [done|].
  rewrite select_active_asset_types_Permutation.
  by rewrite <- list_fmap_compose.
Qed.


End read_balances.


(** ** Reading the history *)

#[local] Instance newer_first_total : Total newer_first.
Proof. intros r1 r2. unfold newer_first. lia. Qed.

#[local] Instance newer_first_trans : Transitive newer_first.
Proof. intros r1 r2 r3. unfold newer_first. lia. Qed.


Section read_history.
Variable names : labels.

Lemma select_history_elem u d row :
  row ∈ select_history names u d ↔
  ∃ t le a tt at',
    t ∈ transactions d
    ∧ le ∈ ledger_entries d ∧ le_transaction_id le = t_id t
    ∧ a ∈ accounts d ∧ acc_id a = le_account_id le ∧ acc_user_id a = Some u
    ∧ tt ∈ transaction_types d ∧ tt_id tt = t_transaction_type_id t
    ∧ at' ∈ asset_types d ∧ at_id at' = t_asset_type_id t
    ∧ row = {| h_id := t_id t;
               h_type := transaction_type_name names (tt_id tt);
               h_typeCode := tt_code tt;
               h_asset := asset_type_name names (at_id at');
               h_assetCode := at_code at';
               h_amount := t_amount t;
               h_entryType := le_entry_type le;
               h_runningBalance := le_running_balance le;
               h_description := t_description t;
               h_metadata := t_metadata t;
               h_status := t_status t;
               h_timestamp := t_created_at t |}.
Proof.
  unfold select_history. rewrite merge_sort_Permutation.
  rewrite list_elem_of_bind. split.
  - intros (t & Hrow & Ht).
    apply list_elem_of_bind in Hrow as (le & Hrow & Hle).
    apply list_elem_of_filter in Hle as [? ?].
    apply list_elem_of_bind in Hrow as (a & Hrow & Ha).
    apply list_elem_of_filter in Ha as [[? ?] ?].
    apply list_elem_of_bind in Hrow as (tt & Hrow & Htt).
    apply list_elem_of_filter in Htt as [? ?].
    apply list_elem_of_bind in Hrow as (at' & Hrow & Hat).
    apply list_elem_of_filter in Hat as [? ?].
    apply list_elem_of_singleton in Hrow.
    by exists t, le, a, tt, at'.
  - intros (t & le & a & tt & at' & ? & ? & ? & ? & ? & ? & ? & ? & ? & ? & ->).
    exists t. split; [|done].
    apply list_elem_of_bind. exists le. split; [|by apply list_elem_of_filter].
    apply list_elem_of_bind. exists a. split; [|by apply list_elem_of_filter].
    apply list_elem_of_bind. exists tt. split; [|by apply list_elem_of_filter].
    apply list_elem_of_bind. exists at'. split; [|by apply list_elem_of_filter].
    by apply list_elem_of_singleton.
Qed.

Lemma getTransactionHistory_Return u limit offset d res :
  getTransactionHistory names u limit offset d = Return res →
  (0 ≤ default 50 limit)%Z ∧ (0 ≤ default 0 offset)%Z
  ∧ res = {| hr_userId := u;
             hr_transactions :=
               take (Z.to_nat (default 50%Z limit))
                    (drop (Z.to_nat (default 0%Z offset))
                          (select_history names u d));
             hr_limit := default 50%Z limit;
             hr_offset := default 0%Z offset |}.
Proof.
  unfold getTransactionHistory, limit_offset.
  repeat case_decide; try done. intros [= <-]. split_and!; [lia..|done].
Qed.

(** X24. A page of the history: getTransactionHistory fails exactly when
    the limit or the offset (50 and 0 when absent) is negative, with the
    error of the server; otherwise it returns min(limit, rows - offset)
    rows and echoes user, limit and offset. *)
Theorem X24_history_page u limit offset d :
  match getTransactionHistory names u limit offset d with
  | Return res =>
      (0 ≤ default 50 limit)%Z ∧ (0 ≤ default 0 offset)%Z
      ∧ hr_userId res = u
      ∧ hr_limit res = default 50%Z limit
      ∧ hr_offset res = default 0%Z offset
      ∧ length (hr_transactions res)
        = (Z.to_nat (default 50%Z limit)
           `min` (length (select_history names u d)
                  - Z.to_nat (default 0%Z offset)))%nat
  | Throw e =>
      ((default 50 limit < 0)%Z ∨ (default 0 offset < 0)%Z)
      ∧ (e = DatabaseError invalid_row_count_in_limit_clause
         ∨ e = DatabaseError invalid_row_count_in_result_offset_clause)
  end.
Proof.
  unfold getTransactionHistory, limit_offset.
  repeat case_decide; simpl; auto.
  split_and!; [lia..|done|done|done|].
  by rewrite length_take, length_drop.
Qed.

(** X25. The rows of a page of the history are ordered by the creation
    time of their transaction, newest first. *)
Theorem X25_history_newest_first u limit offset d res :
  getTransactionHistory names u limit offset d = Return res →
  StronglySorted newer_first (hr_transactions res)
  ∧ ∀ i j r1 r2,
      hr_transactions res !! i = Some r1 →
      hr_transactions res !! j = Some r2 →
      (i < j)%nat → (h_timestamp r2 ≤ h_timestamp r1)%Z.
Proof.
  intros (_ & _ & ->)%getTransactionHistory_Return. simpl.
  assert (StronglySorted newer_first (select_history names u d)) as Hsorted
    by (apply StronglySorted_merge_sort; apply _).
  rewrite <- (take_drop (Z.to_nat (default 0%Z offset))
                (select_history names u d)) in Hsorted.
  apply StronglySorted_app_1_r in Hsorted.
  rewrite <- (take_drop (Z.to_nat (default 50%Z limit))
                (drop _ (select_history names u d))) in Hsorted.
  apply StronglySorted_app_1_l in Hsorted.
  split; [done|]. intros i j r1 r2 Hi Hj Hij.
  apply (StronglySorted_lookup_2 newer_first _ i j r1 r2 Hsorted); done.
Qed.

(** X26. Every row of a user's history is a ledger entry on an account
    of that user, shown with the id, amount, status and creation time of
    its transaction and its own entry type and running balance. *)
Theorem X26_history_is_the_users u limit offset d res row :
  getTransactionHistory names u limit offset d = Return res →
  row ∈ hr_transactions res →
  ∃ t le a,
    t ∈ transactions d ∧ le ∈ ledger_entries d ∧ a ∈ accounts d
    ∧ le_transaction_id le = t_id t
    ∧ le_account_id le = acc_id a ∧ acc_user_id a = Some u
    ∧ h_id row = t_id t ∧ h_amount row = t_amount t
    ∧ h_status row = t_status t ∧ h_timestamp row = t_created_at t
    ∧ h_entryType row = le_entry_type le
    ∧ h_runningBalance row = le_running_balance le.
Proof.
  intros (_ & _ & ->)%getTransactionHistory_Return. simpl. intros Hrow.
  apply (subseteq_take _ _) in Hrow. apply (subseteq_drop _ _) in Hrow.
  apply select_history_elem in Hrow
    as (t & le & a & tt & at' & ? & ? & ? & ? & ? & ? & ? & ? & ? & ? & ->).
  exists t, le, a. by split_and!.
Qed.


End read_history.


(** ** No money is made *)

Lemma asset_total_app asset l1 l2 :
  asset_total asset (l1 ++ l2)
  = (asset_total asset l1 + asset_total asset l2)%Z.
Proof.
  unfold asset_total. induction l1 as [|e l1 IH]; simpl; [done|].
  case_decide; lia.
Qed.

(** X28. Double entry: an execution leaves the sum of credits minus
    debits of every asset, taken over all accounts, as it was. *)
Theorem X28_no_money_is_made op env u a amt k md d o c' asset :
  execute op env u a amt k md (connect d) = (o, c') →
  asset_total asset (ledger_entries (committed c'))
  = asset_total asset (ledger_entries d).
Proof.
  intros Hrun.
  apply execute_committed in Hrun
    as [(e & _ & ->)|(ps & _ & _ & -> & _)]; [done|].
  rewrite posted_ledger_entries, asset_total_app.
  unfold asset_total at 2; simpl. unfold signed; simpl.
  case_decide; lia.
Qed.

(** ** Examples on the seeded database *)

Section more_examples.
Import Sample SampleReads.

Lemma topup_k1_run :
  execute TOP_UP (calm 1000 10) "user_001" "GOLD_COIN" 100 "k1" no_metadata
    (connect seeded)
  = (Return topup_k1_response, topup_k1.2).
Proof. vm_compute. reflexivity. Defined.

Lemma topup_k1_resolves :
  resolve TOP_UP "user_001" "GOLD_COIN" seeded = Some (GOLD_parties TOP_UP).
Proof. vm_compute. reflexivity. Defined.



Lemma user_001_sole_account : sole_account "user_001" user_001_account seeded.
Proof. split; apply (bool_decide_unpack _); vm_compute; exact I. Defined.

Lemma GOLD_COIN_sole_asset_type : sole_asset_type "GOLD_COIN" GOLD_COIN seeded.
Proof. split; apply (bool_decide_unpack _); vm_compute; exact I. Defined.

Lemma busy_quiet : quiet busy.
Proof. intros n d. reflexivity. Defined.

Lemma stuck_quiet : quiet stuck.
Proof. intros n d. reflexivity. Defined.

Lemma X1_balances_stay_nonnegative_witness :
  cache_nonnegative (committed topup_k1.2)
  ∧ ∀ account asset,
      (0 ≤ cached_balance account asset (committed topup_k1.2))%Z.
Proof.
  apply (X1_balances_stay_nonnegative TOP_UP (calm 1000 10) "user_001"
           "GOLD_COIN" 100 "k1" no_metadata seeded
           (Return topup_k1_response) topup_k1.2).
  - apply (bool_decide_unpack _). vm_compute. exact I.
  - exact topup_k1_run.
Defined.

Lemma X2_headers_stay_distinct_witness :
  headers_distinct (committed topup_k1.2).
Proof.
  apply (X2_headers_stay_distinct TOP_UP (calm 1000 10) "user_001"
           "GOLD_COIN" 100 "k1" no_metadata seeded
           (Return topup_k1_response) topup_k1.2).
  - split; apply (bool_decide_unpack _); vm_compute; exact I.
  - exact topup_k1_run.
Defined.

Lemma X3_ledger_keeps_referencing_witness :
  ledger_references_transactions (committed topup_k1.2).
Proof.
  apply (X3_ledger_keeps_referencing TOP_UP (calm 1000 10) "user_001"
           "GOLD_COIN" 100 "k1" no_metadata seeded
           (Return topup_k1_response) topup_k1.2).
  - exact seeded_references.
  - exact topup_k1_run.
Defined.



Lemma X6_append_only_witness :
  asset_types (committed topup_k1.2) = asset_types seeded
  ∧ account_types (committed topup_k1.2) = account_types seeded
  ∧ accounts (committed topup_k1.2) = accounts seeded
  ∧ transaction_types (committed topup_k1.2) = transaction_types seeded
  ∧ transactions seeded `prefix_of` transactions (committed topup_k1.2)
  ∧ ledger_entries seeded `prefix_of` ledger_entries (committed topup_k1.2)
  ∧ audit_log seeded `prefix_of` audit_log (committed topup_k1.2)
  ∧ idempotency_log seeded ⊆ idempotency_log (committed topup_k1.2).
Proof.
  apply (X6_append_only TOP_UP (calm 1000 10) "user_001" "GOLD_COIN" 100
           "k1" no_metadata seeded (Return topup_k1_response) topup_k1.2).
  exact topup_k1_run.
Defined.


Lemma X8_stored_response_window_witness :
  _checkIdempotency (9 + idempotency_ttl) "k1" (committed topup_k1.2)
  = if decide (9 + idempotency_ttl
               < CURRENT_TIMESTAMP (calm 1000 10) + idempotency_ttl)%Z
    then Some topup_k1_response else None.
Proof.
  apply (X8_stored_response_window TOP_UP (calm 1000 10) "user_001"
           "GOLD_COIN" 100 "k1" no_metadata seeded topup_k1_response
           topup_k1.2 (9 + idempotency_ttl)).
  exact topup_k1_run.
Defined.

Lemma X9_one_audit_record_witness :
  ∃ ps row,
    resolve TOP_UP "user_001" "GOLD_COIN" seeded = Some ps
    ∧ audit_log (committed topup_k1.2) = audit_log seeded ++ [row]
    ∧ al_transaction_id row = transactionId topup_k1_response
    ∧ al_account_id row = p_user ps
    ∧ al_action row = transaction_code TOP_UP
    ∧ al_request_userId row = "user_001"
    ∧ al_request_assetCode row = "GOLD_COIN"
    ∧ al_request_amount row = 100%Z.
Proof.
  apply (X9_one_audit_record TOP_UP (calm 1000 10) "user_001" "GOLD_COIN"
           100 "k1" no_metadata seeded topup_k1_response topup_k1.2).
  exact topup_k1_run.
Defined.

Lemma X10_invalid_input_is_refused_witness :
  purchase (alone 1000 10) "user_001" "GOLD_COIN" 0 "k5" no_metadata seeded
  = (Throw (if decide (missing_parameters "user_001" "GOLD_COIN" 0 "k5")
            then MissingRequiredParameters else AmountMustBePositive),
     seeded)
  ∧ (0%Z = 0%Z → missing_parameters "user_001" "GOLD_COIN" 0 "k5").
Proof.
  apply (X10_invalid_input_is_refused PURCHASE (alone 1000 10) "user_001"
           "GOLD_COIN" 0 "k5" no_metadata seeded).
  right. lia.
Defined.

Lemma X11_key_reuse_returns_stored_response_witness :
  purchase (alone 2000 20) "user_001" "GOLD_COIN" 25 "k1" epic_shield
    (committed topup_k1.2)
  = (Return topup_k1_response, committed topup_k1.2).
Proof.
  apply (X11_key_reuse_returns_stored_response TOP_UP (calm 1000 10)
           "user_001" "GOLD_COIN" 100 "k1" no_metadata seeded
           topup_k1_response topup_k1.2 PURCHASE (alone 2000 20)
           "user_001" "GOLD_COIN" 25 epic_shield).
  - exact topup_k1_run.
  - apply valid_call; [lia|discriminate].
  - lia.
  - vm_compute. reflexivity.
Defined.

Lemma X12_retry_driver_attempts_witness :
  ∃ m, (1 ≤ m ≤ 3)%nat
       ∧ retried m seeded
         = (Return third_attempt_response, (retried 3 seeded).2)
       ∧ (∀ j, (1 ≤ j < m)%nat →
               ∃ e, (retried j seeded).1 = Throw e ∧ isRetriable e = true)
       ∧ (∀ e, Return third_attempt_response = Throw e →
               isRetriable e = false ∨ m = 3%nat).
Proof.
  apply (X12_retry_driver_attempts retried 3 seeded
           (Return third_attempt_response) (retried 3 seeded).2).
  - intros n x e x'.
    apply (attempt_Throw TOP_UP busy "user_001" "GOLD_COIN" 100 "k1"
             no_metadata n x e x' busy_quiet).
  - lia.
  - vm_compute. reflexivity.
Defined.

Lemma X13_transient_failures_are_absorbed_witness :
  topUp busy "user_001" "GOLD_COIN" 100 "k1" no_metadata seeded
  = (Return third_attempt_response,
     committed
       (execute TOP_UP (attempt_env busy 3) "user_001" "GOLD_COIN" 100 "k1"
          no_metadata (connect seeded)).2).
Proof.
  apply (X13_transient_failures_are_absorbed TOP_UP busy "user_001"
           "GOLD_COIN" 100 "k1" no_metadata seeded 3 third_attempt_response
           (execute TOP_UP (attempt_env busy 3) "user_001" "GOLD_COIN" 100
              "k1" no_metadata (connect seeded)).2).
  - exact busy_quiet.
  - apply valid_call; [lia|discriminate].
  - lia.
  - reflexivity.
  - lia.
  - intros j Hj. exists (DatabaseError lock_not_available).
    destruct j as [|[|[|j]]]; [lia| | |lia]; vm_compute; split; reflexivity.
  - vm_compute. reflexivity.
Defined.

Lemma X14_contended_row_fails_fast_witness :
  let run := execute TOP_UP (contended 1000 10) "user_001" "GOLD_COIN" 100
               "k1" no_metadata (connect seeded) in
  run.1 = Throw (DatabaseError lock_not_available)
  ∧ isRetriable (DatabaseError lock_not_available) = true
  ∧ (InsertTransaction ∉ statements run.2)
  ∧ committed run.2 = seeded.
Proof.
  apply (X14_contended_row_fails_fast TOP_UP (contended 1000 10) "user_001"
           "GOLD_COIN" 100 "k1" no_metadata seeded (GOLD_parties TOP_UP)
           (execute TOP_UP (contended 1000 10) "user_001" "GOLD_COIN" 100
              "k1" no_metadata (connect seeded)).1
           (execute TOP_UP (contended 1000 10) "user_001" "GOLD_COIN" 100
              "k1" no_metadata (connect seeded)).2).
  - exact topup_k1_resolves.
  - left. apply (bool_decide_unpack _). vm_compute. exact I.
  - vm_compute. reflexivity.
Defined.

Lemma X15_lock_held_through_all_attempts_witness :
  topUp stuck "user_001" "GOLD_COIN" 100 "k1" no_metadata seeded
  = (Throw (DatabaseError lock_not_available), seeded).
Proof.
  apply (X15_lock_held_through_all_attempts TOP_UP stuck "user_001"
           "GOLD_COIN" 100 "k1" no_metadata seeded (GOLD_parties TOP_UP)).
  - exact stuck_quiet.
  - apply valid_call; [lia|discriminate].
  - lia.
  - reflexivity.
  - exact topup_k1_resolves.
  - intros n Hn. left. apply (bool_decide_unpack _). vm_compute. exact I.
Defined.

Lemma X16_commit_held_both_rows_witness :
  ∃ ps, resolve TOP_UP "user_001" "GOLD_COIN" seeded = Some ps
        ∧ p_user ps ∈ row_locks topup_k1.2
        ∧ p_system ps ∈ row_locks topup_k1.2
        ∧ Forall (λ i, i ∉ locked_elsewhere (calm 1000 10))
                 (row_locks topup_k1.2).
Proof.
  apply (X16_commit_held_both_rows TOP_UP (calm 1000 10) "user_001"
           "GOLD_COIN" 100 "k1" no_metadata seeded topup_k1_response
           topup_k1.2).
  exact topup_k1_run.
Defined.

Lemma X17_bonus_and_purchase_lock_ascending_witness :
  StronglySorted N.le (row_locks purchase_k2.2)
  ∧ ∀ i j x y,
      row_locks purchase_k2.2 !! i = Some x →
      row_locks purchase_k2.2 !! j = Some y →
      (i < j)%nat → (x ≤ y)%N.
Proof.
  apply (X17_bonus_and_purchase_lock_ascending PURCHASE (calm 1000 10)
           "user_001" "GOLD_COIN" 25 "k2" epic_shield seeded
           (Return purchase_k2_response) purchase_k2.2).
  - discriminate.
  - vm_compute. reflexivity.
Defined.

Lemma X18_getBalance_of_the_unknown_witness :
  getBalance names "user_404" "GOLD_COIN" seeded
  = no_balance "user_404" "GOLD_COIN".
Proof.
  apply (X18_getBalance_of_the_unknown names "user_404" "GOLD_COIN" seeded).
  left. apply (bool_decide_unpack _). vm_compute. exact I.
Defined.

Lemma X19_getBalance_reads_what_movements_check_witness :
  br_userId (getBalance names "user_001" "GOLD_COIN" seeded) = "user_001"
  ∧ br_assetCode (getBalance names "user_001" "GOLD_COIN" seeded)
    = "GOLD_COIN"
  ∧ br_balance (getBalance names "user_001" "GOLD_COIN" seeded)
    = cached_balance user_001_account GOLD_COIN seeded
  ∧ (cache_consistent seeded →
     br_balance (getBalance names "user_001" "GOLD_COIN" seeded)
     = ledger_balance user_001_account GOLD_COIN seeded).
Proof.
  apply (X19_getBalance_reads_what_movements_check names "user_001"
           "GOLD_COIN" user_001_account GOLD_COIN seeded).
  - exact user_001_sole_account.
  - exact GOLD_COIN_sole_asset_type.
Defined.


Lemma X21_getAllBalances_lists_the_users_active_assets_witness :
  ∃ t, t ∈ asset_types (committed topup_k1.2) ∧ at_is_active t = true
       ∧ bi_assetCode balance_after_k1 = at_code t
       ∧ bi_assetName balance_after_k1 = asset_type_name names (at_id t)
       ∧ (bi_balance balance_after_k1 = 0%Z
          ∨ ∃ a, a ∈ accounts (committed topup_k1.2)
                 ∧ acc_user_id a = Some "user_001"
                 ∧ balance_cache (committed topup_k1.2)
                     !! (acc_id a, at_id t) ≠ None
                 ∧ bi_balance balance_after_k1
                   = cached_balance (acc_id a) (at_id t)
                       (committed topup_k1.2)).
Proof.
  apply (X21_getAllBalances_lists_the_users_active_assets names byte_order
           "user_001" (committed topup_k1.2) balance_after_k1).
  vm_compute. apply list_elem_of_here.
Defined.

Lemma X22_getAllBalances_without_balances_witness :
  bs_userId (getAllBalances names byte_order "user_404" seeded) = "user_404"
  ∧ bs_balances (getAllBalances names byte_order "user_404" seeded)
    ≡ₚ (λ t, {| bi_assetCode := at_code t;
                bi_assetName := asset_type_name names (at_id t);
                bi_balance := 0 |})
       <$> filter (λ t, at_is_active t = true) (asset_types seeded).
Proof.
  apply (X22_getAllBalances_without_balances names byte_order "user_404"
           seeded).
  repeat apply Forall_cons_2; [discriminate..|constructor].
Defined.


Lemma history_after_k1_run :
  getTransactionHistory names "user_001" None None (committed topup_k1.2)
  = Return history_after_k1.
Proof. vm_compute. reflexivity. Defined.

Lemma X25_history_newest_first_witness :
  StronglySorted newer_first (hr_transactions history_after_k1)
  ∧ ∀ i j r1 r2,
      hr_transactions history_after_k1 !! i = Some r1 →
      hr_transactions history_after_k1 !! j = Some r2 →
      (i < j)%nat → (h_timestamp r2 ≤ h_timestamp r1)%Z.
Proof.
  apply (X25_history_newest_first names "user_001" None None
           (committed topup_k1.2) history_after_k1).
  exact history_after_k1_run.
Defined.

Lemma X26_history_is_the_users_witness :
  ∃ t le a,
    t ∈ transactions (committed topup_k1.2)
    ∧ le ∈ ledger_entries (committed topup_k1.2)
    ∧ a ∈ accounts (committed topup_k1.2)
    ∧ le_transaction_id le = t_id t
    ∧ le_account_id le = acc_id a ∧ acc_user_id a = Some "user_001"
    ∧ h_id topup_row = t_id t ∧ h_amount topup_row = t_amount t
    ∧ h_status topup_row = t_status t
    ∧ h_timestamp topup_row = t_created_at t
    ∧ h_entryType topup_row = le_entry_type le
    ∧ h_runningBalance topup_row = le_running_balance le.
Proof.
  apply (X26_history_is_the_users names "user_001" None None
           (committed topup_k1.2) history_after_k1 topup_row).
  - exact history_after_k1_run.
  - apply list_elem_of_here.
Defined.


Lemma X28_no_money_is_made_witness :
  asset_total GOLD_COIN (ledger_entries (committed topup_k1.2))
  = asset_total GOLD_COIN (ledger_entries seeded).
Proof.
  apply (X28_no_money_is_made TOP_UP (calm 1000 10) "user_001" "GOLD_COIN"
           100 "k1" no_metadata seeded (Return topup_k1_response)
           topup_k1.2 GOLD_COIN).
  exact topup_k1_run.
Defined.

End more_examples.
